(** * mvpa2.base.param: constraints and parameters

    A shallow embedding of [mvpa2/base/param.py] (PyMVPA, Python 2): the value
    constraints ([EnsureValue] and its siblings, [OrConstrainer],
    [AndConstrainer]) and the [Parameter] class, followed by the properties
    of the module's behaviour.

    The module is duck-typed: it never inspects the values it is handed
    beyond a handful of interpreter operations ([==], [!=], [<], [>], [is],
    [isinstance], [str], ...).  Those operations, numpy, [textwrap] and the
    base class [IndexedCollectable] live outside the module; they are
    gathered in the class [Host], and every definition below is written
    against an arbitrary host.  [cpython] is a host over None, bool, int and
    str objects, on which the definitions compute. *)

From Stdlib Require Import ZArith List Bool String Ascii Lia DecimalString.
Import ListNotations.
Local Open Scope string_scope.
Local Open Scope Z_scope.

Set Implicit Arguments.
Set Warnings "-register-all".

(** ** Exceptions and results *)

(** The exception classes the module raises or meets.  All of them derive
    from [Exception], so an [except Exception] clause catches each one. *)
Inductive exc_class : Type :=
| ValueError
| TypeError
| RuntimeError
| AttributeError
| ValidationError                 (* class ValidationError(Exception) *)
| OtherException (name : string). (* any other subclass of Exception *)

Record exn : Type := Exc { exc_type : exc_class; exc_msg : string }.

Inductive result (A : Type) : Type :=
| Ok (a : A)
| Raise (e : exn).
Arguments Ok {A} a.
Arguments Raise {A} e.

Definition bind {A B} (r : result A) (k : A -> result B) : result B :=
  match r with
  | Ok a => k a
  | Raise e => Raise e
  end.

Declare Scope py_scope.
Delimit Scope py_scope with py.
Notation "x <- r ;; k" := (bind r (fun x => k))
  (at level 61, r at next level, right associativity) : py_scope.
Local Open Scope py_scope.

(** ** The host: interpreter, numpy, textwrap and the base class *)

(** What [a != b] evaluates to: an ordinary object, of which only the truth
    value is kept, or a numpy array of booleans. *)
Inductive ne_value : Type :=
| NeScalar (truth : bool)
| NeArray (elems : list bool).

(** What [IndexedCollectable.__init__(self, index=, name=, doc=)] leaves on
    the instance: the slot [_value] that [_set] reads before it first writes
    it, and the attributes behind [self.name] and [self.__doc__]. *)
Record collectable (obj : Type) : Type := Collectable {
  c_value : obj;
  c_name : obj;
  c_doc : obj;
  c_index : obj
}.

Class Host (obj : Type) : Type := {
  (* the singleton None *)
  py_None : obj;
  (* [a is b] *)
  py_is : obj -> obj -> bool;
  py_is_refl : forall a, py_is a a = true;
  (* the truth value of [a == b], which may raise (numpy arrays) *)
  py_eq : obj -> obj -> result bool;
  (* [a != b] *)
  py_ne : obj -> obj -> ne_value;
  (* the truth values of [a < b] and [a > b] *)
  py_lt : obj -> obj -> result bool;
  py_gt : obj -> obj -> result bool;
  (* [isinstance(a, bool)] *)
  py_isinstance_bool : obj -> bool;
  (* [hasattr(a, '__iter__')] *)
  py_hasattr_iter : obj -> bool;
  (* ['%s' % (a,)] and ['%r' % (a,)] *)
  py_str : obj -> string;
  py_repr : obj -> result string;
  (* the characters of a str object; None for an object of another type *)
  py_text : obj -> option string;
  (* [textwrap.wrap(text, width=w, replace_whitespace=True)] *)
  textwrap_wrap : string -> Z -> result (list string);
  (* [__debug__]: true unless the interpreter runs with -O *)
  py_debug : bool;
  (* attribute names that [self.__setattr__] refuses on an instance because
     the base class declares them as properties without a setter *)
  base_readonly : string -> bool;
  (* the base class initialiser *)
  IndexedCollectable_init : obj -> obj -> obj -> collectable obj
}.

Section Param.

Context {obj : Type} {host : Host obj}.

(** ** Constraints *)

(** What [hasattr(c, 'get_doc')] and [c.get_doc()] give for a callable that
    is not one of the module's classes. *)
Inductive doc_method : Type :=
| NoGetDoc                        (* the object has no get_doc *)
| GetDoc (doc : option string).   (* get_doc() returns None or a string *)

(** A constraint object.  The sequences held by the two combinators may
    contain the literal None beside constraints (see the docstring of
    [Parameter.__init__]), hence [option constraint]; a tuple or list is
    given by its elements. *)
Inductive constraint : Type :=
| EnsureValue
| EnsureBool
| EnsureChoice (allowed : list obj)
| EnsureRange (min max : obj)
| OrConstrainer (constraints : list (option constraint))
| AndConstrainer (constraints : list (option constraint))
| Callable (call : obj -> result obj) (get_doc : doc_method).

(** [class EnsureInt]: all the work is the interpreter's [int] and [map],
    passed in as [int_] and [map_]. *)
Definition EnsureInt (int_ : obj -> result obj)
    (map_ : (obj -> result obj) -> obj -> result obj) : constraint :=
  Callable
    (fun value =>
       if py_hasattr_iter value then map_ int_ value else int_ value)
    (GetDoc (Some "value must be convertible to type int")).

(** [class EnsureFloat]: [float(value)], with the interpreter's [float]
    passed in as [float_]. *)
Definition EnsureFloat (float_ : obj -> result obj) : constraint :=
  Callable (fun value => float_ value)
    (GetDoc (Some "value must be convertible to type float")).

(** [EnsureValue.__call__] *)
Definition EnsureValue_call (value : obj) : result obj := Ok value.

(** [EnsureBool.__call__] *)
Definition EnsureBool_call (value : obj) : result obj :=
  if py_isinstance_bool value then Ok value
  else Raise (Exc ValueError "Value must be of type bool").

(** [value in seq] for a tuple or list: an element that is the value, or
    equals it; scanning stops at the first hit, and a comparison that raises
    ends it. *)
Fixpoint py_in (value : obj) (seq : list obj) : result bool :=
  match seq with
  | [] => Ok false
  | x :: seq' =>
      if py_is value x then Ok true
      else b <- py_eq value x ;; if b then Ok true else py_in value seq'
  end.

(** [str(t)] of a tuple. *)
Definition tuple_str (t : list obj) : result string :=
  let fix reprs (l : list obj) : result (list string) :=
    match l with
    | [] => Ok []
    | x :: l' => s <- py_repr x ;; r <- reprs l' ;; Ok (s :: r)
    end in
  r <- reprs t ;;
  match r with
  | [s] => Ok ("(" ++ s ++ ",)")
  | _ => Ok ("(" ++ String.concat ", " r ++ ")")
  end.

(** [EnsureChoice.__call__], for [allowed] a tuple. *)
Definition EnsureChoice_call (allowed : list obj) (value : obj) : result obj :=
  b <- py_in value allowed ;;
  if negb b then
    s <- tuple_str allowed ;;
    Raise (Exc ValueError ("Value is not in " ++ s))
  else Ok value.

(** [EnsureRange.__call__] *)
Definition EnsureRange_call (min max value : obj) : result obj :=
  _ <- (if negb (py_is min py_None) then
          b <- py_lt value min ;;
          if b then
            Raise (Exc ValueError ("Value must be at least " ++ py_str min))
          else Ok tt
        else Ok tt) ;;
  _ <- (if negb (py_is max py_None) then
          b <- py_gt value max ;;
          if b then
            Raise (Exc ValueError ("Value must be at most " ++ py_str max))
          else Ok tt
        else Ok tt) ;;
  Ok value.

(** Calling an element of a combinator's sequence: the literal None is not
    callable. *)
Definition call_child (call : constraint -> obj -> result obj)
    (c : option constraint) (value : obj) : result obj :=
  match c with
  | Some c => call c value
  | None => Raise (Exc TypeError "'NoneType' object is not callable")
  end.

(** [None in self._constraints] *)
Definition has_None (constraints : list (option constraint)) : bool :=
  existsb (fun c => match c with None => true | Some _ => false end)
    constraints.

(** The loop of [OrConstrainer.__call__]: the first child that returns
    wins; every exception is collected in [e_list], which is then dropped. *)
Fixpoint or_loop (call : constraint -> obj -> result obj)
    (constraints : list (option constraint)) (value : obj) : result obj :=
  match constraints with
  | [] => Raise (Exc ValidationError "All given constraints are violated")
  | c :: rest =>
      match call_child call c value with
      | Ok r => Ok r
      | Raise _ => or_loop call rest value
      end
  end.

(** [OrConstrainer.__call__] *)
Definition OrConstrainer_call (call : constraint -> obj -> result obj)
    (constraints : list (option constraint)) (value : obj) : result obj :=
  isnone <- py_eq value py_None ;;
  if isnone then
    if has_None constraints then Ok py_None
    else Raise (Exc ValueError "None is not an allowed value")
  else or_loop call constraints value.

(** [AndConstrainer.__call__] *)
Fixpoint AndConstrainer_call (call : constraint -> obj -> result obj)
    (constraints : list (option constraint)) (value : obj) : result obj :=
  match constraints with
  | [] => Ok value
  | c :: rest =>
      value' <- call_child call c value ;;
      AndConstrainer_call call rest value'
  end.

(** [c(value)]: dispatch on the class of the constraint. *)
Fixpoint call (c : constraint) (value : obj) {struct c} : result obj :=
  match c with
  | EnsureValue => EnsureValue_call value
  | EnsureBool => EnsureBool_call value
  | EnsureChoice allowed => EnsureChoice_call allowed value
  | EnsureRange min max => EnsureRange_call min max value
  | OrConstrainer constraints => OrConstrainer_call call constraints value
  | AndConstrainer constraints => AndConstrainer_call call constraints value
  | Callable f _ => f value
  end.

(** *** Documentation of constraints *)

(** [hasattr(c, 'get_doc')] for an element of a combinator's sequence. *)
Definition hasattr_get_doc (c : option constraint) : bool :=
  match c with
  | None => false
  | Some (Callable _ NoGetDoc) => false
  | Some _ => true
  end.

(** [sep.join(items)]: every item must be a string; the first None among
    them raises TypeError. *)
Fixpoint str_join_from (i : nat) (items : list (option string))
    : result (list string) :=
  match items with
  | [] => Ok []
  | Some s :: items' => r <- str_join_from (S i) items' ;; Ok (s :: r)
  | None :: _ =>
      Raise (Exc TypeError
               ("sequence item " ++ NilZero.string_of_uint (Nat.to_uint i)
                ++ ": expected string, NoneType found"))
  end.

Definition str_join (sep : string) (items : list (option string))
    : result string :=
  r <- str_join_from 0 items ;; Ok (String.concat sep r).

(** The generator [c.get_doc() for c in self._constraints if hasattr(c,
    'get_doc')], consumed left to right. *)
Fixpoint child_docs (get_doc : constraint -> result (option string))
    (constraints : list (option constraint)) : result (list (option string)) :=
  match constraints with
  | [] => Ok []
  | c :: rest =>
      if hasattr_get_doc c then
        match c with
        | Some c' =>
            d <- get_doc c' ;; r <- child_docs get_doc rest ;; Ok (d :: r)
        | None => child_docs get_doc rest
        end
      else child_docs get_doc rest
  end.

(** [c.get_doc()]; [Ok None] when the method returns None. *)
Fixpoint get_doc (c : constraint) : result (option string) :=
  match c with
  | EnsureValue => Ok None
  | EnsureBool => Ok (Some "value must be of type bool")
  | EnsureChoice allowed =>
      s <- tuple_str allowed ;; Ok (Some ("value must be in " ++ s))
  | EnsureRange min max =>
      let min_str := if py_is min py_None then "-inf" else py_str min in
      let max_str := if py_is max py_None then "inf" else py_str max in
      Ok (Some ("value must be in range [" ++ min_str ++ ", " ++ max_str ++ "]"))
  | OrConstrainer constraints =>
      let doc := "" in
      let doc := doc ++ "(" in
      let doc := if has_None constraints then doc ++ "None or " else doc in
      docs <- child_docs get_doc constraints ;;
      joined <- str_join " or " docs ;;
      let doc := doc ++ joined in
      Ok (Some (doc ++ ")"))
  | AndConstrainer constraints =>
      let doc := "" in
      let doc := doc ++ "(" in
      docs <- child_docs get_doc constraints ;;
      joined <- str_join ", " docs ;;
      let doc := doc ++ joined in
      Ok (Some (doc ++ ")"))
  | Callable _ NoGetDoc =>
      Raise (Exc AttributeError "object has no attribute 'get_doc'")
  | Callable _ (GetDoc d) => Ok d
  end.

(** ** Parameter *)

(** A [Parameter] instance (the record is named [parameter]: the capitalised
    word is reserved).  [attributes] holds what [__init__] stored with
    [self.__setattr__(k, v)] for the extra keyword arguments, in the order
    the dictionary was iterated; the other fields are the attributes the
    class itself assigns ([__default] is [_Parameter__default]).  A keyword
    that happens to carry the name of one of those is overwritten by the
    assignments of [__init__] that follow the loop, so it shows in
    [attributes] only. *)
Record parameter : Type := mkParameter {
  _additional_props : list string;
  attributes : list (string * obj);
  __default : obj;
  _ro : bool;
  _constraints : option constraint;
  _value : obj;
  _isset : bool;
  name : obj;
  __doc__ : obj;
  _instance_index : obj
}.

Definition with_value (v : obj) (isset : bool) (self : parameter) : parameter :=
  mkParameter (_additional_props self) (attributes self) (__default self)
    (_ro self) (_constraints self) v isset (name self) (__doc__ self)
    (_instance_index self).

Definition with_isset (isset : bool) (self : parameter) : parameter :=
  with_value (_value self) isset self.

Definition with_default (d : obj) (self : parameter) : parameter :=
  mkParameter (_additional_props self) (attributes self) d
    (_ro self) (_constraints self) (_value self) (_isset self) (name self)
    (__doc__ self) (_instance_index self).

(** A method mutates the instance and returns or raises: the instance after
    the call is there in both cases. *)
Definition method (A : Type) : Type := parameter -> parameter * result A.

(** [np.any(a)] for an array of booleans. *)
Definition np_any (elems : list bool) : bool := existsb (fun b => b) elems.

(** The first statement of [_set]: [if self._constraints is not None: val =
    self._constraints(val)]. *)
Definition constrain (self : parameter) (val : obj) : result obj :=
  match _constraints self with
  | Some constraints => call constraints val
  | None => Ok val
  end.

(** The test [(isarray and np.any(different_value)) or ((not isarray) and
    different_value)] of [_set], where [isarray] is
    [isinstance(different_value, np.ndarray)]. *)
Definition differs (different_value : ne_value) : bool :=
  match different_value with
  | NeArray elems => np_any elems
  | NeScalar truth => truth
  end.

(** [Parameter._set], the setter of the property [value].  The two [debug]
    calls only log. *)
Definition _set (val : obj) (init : bool) : method unit := fun self =>
  match constrain self val with
  | Raise e => (self, Raise e)
  | Ok val =>
      let different_value := py_ne (_value self) val in
      if _ro self && negb init then
        (self,
         Raise (Exc RuntimeError
                  ("Attempt to set read-only parameter " ++ py_str (name self)
                   ++ " to " ++ py_str val)))
      else if differs different_value then
        (with_value val (negb init) self, Ok tt)
      else (self, Ok tt)
  end.

(** The property [default] (getter) and the properties [is_default] and
    [equal_default]. *)
Definition default (self : parameter) : obj := __default self.

Definition is_default (self : parameter) : bool :=
  py_is (_value self) (default self).

Definition equal_default (self : parameter) : result bool :=
  py_eq (_value self) (__default self).

(** The property [value] (getter). *)
Definition value (self : parameter) : obj := _value self.

(** [Parameter.reset_value] *)
Definition reset_value : method unit := fun self =>
  if negb (is_default self) && negb (_ro self) then
    let self := with_isset true self in
    _set (__default self) false self
  else (self, Ok tt).

(** [Parameter._set_default], the setter of the property [default]. *)
Definition _set_default (value : obj) : method unit := fun self =>
  let wasdefault := is_default self in
  let self := with_default value self in
  if wasdefault then
    match reset_value self with
    | (self, Ok _) => (with_isset false self, Ok tt)
    | (self, Raise e) => (self, Raise e)
    end
  else (self, Ok tt).

(** *** Construction *)

Definition has_key (k : string) (kwargs : list (string * obj)) : bool :=
  existsb (fun kv => String.eqb k (fst kv)) kwargs.

Fixpoint lookup (k : string) (kwargs : list (string * obj)) : option obj :=
  match kwargs with
  | [] => None
  | (k', v) :: rest => if String.eqb k k' then Some v else lookup k rest
  end.

(** [self.__setattr__(k, v)] on the instance under construction, where
    none of the attributes of [__init__] exists yet.  [is_default] and
    [equal_default] are properties without a setter; [value] and [default]
    have setters ([_set], [_set_default]) that read attributes not yet there
    (no call can put these two names in [kwargs]: they are declared
    arguments). *)
Definition setattr_init (k : string) : result unit :=
  if String.eqb k "is_default" || String.eqb k "equal_default"
     || base_readonly k then
    Raise (Exc AttributeError "can't set attribute")
  else if String.eqb k "value" then
    Raise (Exc AttributeError
             "'Parameter' object has no attribute '_constraints'")
  else if String.eqb k "default" then
    Raise (Exc AttributeError "'Parameter' object has no attribute '_value'")
  else Ok tt.

(** The loop over [kwargs.iteritems()]. *)
Fixpoint set_kwargs (kwargs : list (string * obj)) : result unit :=
  match kwargs with
  | [] => Ok tt
  | (k, _) :: rest => _ <- setattr_init k ;; set_kwargs rest
  end.

(** [Parameter.__init__(self, default, constraints, ro, index, value, name,
    doc, **kwargs)], in two steps: everything up to the closing
    [if __debug__:] block, and that block.  [kwargs] lists the dictionary in
    iteration order. *)
Definition init_assign (default : obj) (constraints : option constraint)
    (ro : bool) (index value name doc : obj) (kwargs : list (string * obj))
    : result parameter :=
  _ <- set_kwargs kwargs ;;
  let base := IndexedCollectable_init index name doc in
  let self :=
    mkParameter (map fst kwargs) kwargs default ro constraints
      (c_value base) false (c_name base) (c_doc base) (c_index base) in
  match
    if py_is value py_None then _set (__default self) true self
    else _set value true self
  with
  | (_, Raise e) => Raise e
  | (self, Ok _) => Ok self
  end.

Definition val_is_illegal : exn :=
  Exc ValueError "'val' property name is illegal.".

Definition __init__ (default : obj) (constraints : option constraint)
    (ro : bool) (index value name doc : obj) (kwargs : list (string * obj))
    : result parameter :=
  self <- init_assign default constraints ro index value name doc kwargs ;;
  if py_debug then
    if has_key "val" kwargs then Raise val_is_illegal else Ok self
  else Ok self.

(** The names [__init__] declares; a keyword argument with another name
    lands in [kwargs]. *)
Definition declared : list string :=
  ["self"; "default"; "constraints"; "ro"; "index"; "value"; "name"; "doc"].

Definition is_declared (k : string) : bool :=
  existsb (String.eqb k) declared.

(** The keywords that reach [__init__] as [kwargs]. *)
Definition extra (keywords : list (string * obj)) : list (string * obj) :=
  filter (fun kv => negb (is_declared (fst kv))) keywords.

(** The call [Parameter(default, constraints, ro, **keywords)]: the
    interpreter binds the keywords that name a declared argument, gives the
    declared arguments left out their default None, and collects the other
    keywords in [kwargs].  A keyword naming an argument already given by
    position is refused. *)
Definition Parameter_new (default : obj) (constraints : option constraint)
    (ro : bool) (keywords : list (string * obj)) : result parameter :=
  match
    find (fun kv => existsb (String.eqb (fst kv))
                      ["self"; "default"; "constraints"; "ro"]) keywords
  with
  | Some (k, _) =>
      Raise (Exc TypeError
               ("__init__() got multiple values for keyword argument '"
                ++ k ++ "'"))
  | None =>
      let arg k :=
        match lookup k keywords with Some v => v | None => py_None end in
      __init__ default constraints ro (arg "index") (arg "value")
        (arg "name") (arg "doc") (extra keywords)
  end.

(** *** Documentation of a parameter *)

Definition newline : string := String (ascii_of_nat 10) "".

(** The characters [\s] matches and [str.strip] removes: space, \t, \n,
    \v, \f, \r. *)
Definition isspace (c : ascii) : bool :=
  let n := nat_of_ascii c in
  (Nat.eqb n 32 || (Nat.leb 9 n && Nat.leb n 13))%bool.

Definition starts_with_space (s : string) : bool :=
  match s with
  | String c _ => isspace c
  | EmptyString => false
  end.

Fixpoint lstrip (s : string) : string :=
  match s with
  | String c s' => if isspace c then lstrip s' else s
  | EmptyString => EmptyString
  end.

Fixpoint rstrip (s : string) : string :=
  match s with
  | String c s' =>
      match rstrip s' with
      | EmptyString => if isspace c then EmptyString else String c EmptyString
      | r => String c r
      end
  | EmptyString => EmptyString
  end.

(** [s.strip()] *)
Definition strip (s : string) : string := rstrip (lstrip s).

(** [s.endswith('.')] *)
Fixpoint endswith_dot (s : string) : bool :=
  match s with
  | EmptyString => false
  | String c EmptyString => Ascii.eqb c "."
  | String _ s' => endswith_dot s'
  end.

(** [_whitespace_re.sub(' ', s)] for [_whitespace_re =
    re.compile('\n\s+|^\s+')]: a newline with the whitespace that follows it
    (at least one character), or whitespace at the very start of the
    string, becomes one space.  [skipping] is true while the scan is inside
    a match. *)
Fixpoint whitespace_scan (skipping : bool) (s : string) : string :=
  match s with
  | EmptyString => EmptyString
  | String c s' =>
      if skipping && isspace c then whitespace_scan true s'
      else if Ascii.eqb c (ascii_of_nat 10) && starts_with_space s' then
        String " " (whitespace_scan true s')
      else String c (whitespace_scan false s')
  end.

Definition _whitespace_re_sub (s : string) : string :=
  if starts_with_space s then String " " (whitespace_scan true s)
  else whitespace_scan false s.

(** The attribute names of a str (or unicode) object. *)
Definition str_attributes : list string :=
  ["__add__"; "__class__"; "__contains__"; "__delattr__"; "__doc__";
   "__eq__"; "__format__"; "__ge__"; "__getattribute__"; "__getitem__";
   "__getnewargs__"; "__getslice__"; "__gt__"; "__hash__"; "__init__";
   "__le__"; "__len__"; "__lt__"; "__mod__"; "__mul__"; "__ne__"; "__new__";
   "__reduce__"; "__reduce_ex__"; "__repr__"; "__rmod__"; "__rmul__";
   "__setattr__"; "__sizeof__"; "__str__"; "__subclasshook__";
   "_formatter_field_name_split"; "_formatter_parser"; "capitalize";
   "center"; "count"; "decode"; "encode"; "endswith"; "expandtabs"; "find";
   "format"; "index"; "isalnum"; "isalpha"; "isdecimal"; "isdigit";
   "islower"; "isnumeric"; "isspace"; "istitle"; "isupper"; "join"; "ljust";
   "lower"; "lstrip"; "partition"; "replace"; "rfind"; "rindex"; "rjust";
   "rpartition"; "rsplit"; "rstrip"; "split"; "splitlines"; "startswith";
   "strip"; "swapcase"; "title"; "translate"; "upper"; "zfill"].

(** [hasattr(s, attr)] for a string [s]. *)
Definition str_hasattr (s : string) (attr : string) : bool :=
  existsb (String.eqb attr) str_attributes.

(** [getattr(self, k)] for an attribute stored from [kwargs]. *)
Definition getattr (self : parameter) (k : string) : result obj :=
  match lookup k (attributes self) with
  | Some v => Ok v
  | None =>
      Raise (Exc AttributeError
               ("'Parameter' object has no attribute '" ++ k ++ "'"))
  end.

(** The body of the outer [try] of [_paramdoc]: the lines it adds to
    [paramsdoc], or the exception that the [except] clause swallows. *)
Definition paramdoc_body (indent : string) (width : Z) (self : parameter)
    : result (list string) :=
  doc <- match py_text (__doc__ self) with
         | Some s => Ok (strip s)
         | None => Raise (Exc AttributeError "object has no attribute 'strip'")
         end ;;
  let doc := if negb (endswith_dot doc) then doc ++ "." else doc in
  doc <- match _constraints self with
         | Some constraints =>
             let doc := doc ++ " Constraints: " in
             d <- get_doc constraints ;;
             match d with
             | Some d => Ok (doc ++ d ++ ".")
             | None =>
                 Raise (Exc TypeError
                          "cannot concatenate 'str' and 'NoneType' objects")
             end
         | None => Ok doc
         end ;;
  let doc := match py_repr (default self) with
             | Ok r => doc ++ " (Default: " ++ r ++ ")"
             | Raise _ => doc
             end in
  let doc := _whitespace_re_sub doc in
  lines <- textwrap_wrap doc (width - Z.of_nat (String.length indent)) ;;
  Ok (map (fun x => indent ++ x) lines).

(** [Parameter._paramdoc(self, indent, width)], for string [indent]; the
    first line is ['%s' % self.name]. *)
Definition _paramdoc (indent : string) (width : Z) (self : parameter)
    : result string :=
  let paramsdoc := py_str (name self) in
  paramsdoc <- (if str_hasattr paramsdoc "allowedtype" then
                  allowedtype <- getattr self "allowedtype" ;;
                  Ok (paramsdoc ++ " : " ++ py_str allowedtype)
                else Ok paramsdoc) ;;
  let paramsdoc := [paramsdoc] in
  let paramsdoc := match paramdoc_body indent width self with
                   | Ok lines => (paramsdoc ++ lines)%list
                   | Raise _ => paramsdoc
                   end in
  Ok (String.concat newline paramsdoc).

End Param.

Arguments constraint obj : clear implicits.
Arguments parameter obj : clear implicits.
Arguments method obj A : clear implicits.

(** ** A host to compute with *)

Module CPython.

(** None, bool, int (and long) and str objects of CPython 2 on a 64-bit
    build, each with the identity the caller gave it. *)
Inductive pyval : Type :=
| VNone
| VBool (b : bool)
| VInt (z : Z)
| VStr (s : string).

Record pyobj : Type := Obj { oid : positive; oval : pyval }.

(** None, True and False are singletons; any other two objects are the same
    object when they carry the same identity. *)
Definition is_ (a b : pyobj) : bool :=
  match oval a, oval b with
  | VNone, VNone => true
  | VBool x, VBool y => Bool.eqb x y
  | VNone, _ | _, VNone | VBool _, _ | _, VBool _ => false
  | _, _ => Pos.eqb (oid a) (oid b)
  end.

Definition is_refl (a : pyobj) : is_ a a = true :=
  match a with
  | Obj id v =>
      match v with
      | VNone => eq_refl
      | VBool b => Bool.eqb_reflx b
      | VInt _ | VStr _ => Pos.eqb_refl id
      end
  end.

Definition number (v : pyval) : option Z :=
  match v with
  | VBool b => Some (if b then 1 else 0)
  | VInt z => Some z
  | _ => None
  end.

(** Python 2 orders any two objects: None first, then numbers by value,
    then strings by their bytes. *)
Definition cmp (a b : pyobj) : comparison :=
  match oval a, oval b with
  | VNone, VNone => Eq
  | VNone, _ => Lt
  | _, VNone => Gt
  | VStr s, VStr t => String.compare s t
  | VStr _, _ => Gt
  | _, VStr _ => Lt
  | x, y =>
      match number x, number y with
      | Some m, Some n => Z.compare m n
      | _, _ => Eq
      end
  end.

Definition eq_ (a b : pyobj) : bool :=
  match cmp a b with Eq => true | _ => false end.

Definition digit_hex (n : nat) : ascii :=
  ascii_of_nat (if Nat.ltb n 10 then 48 + n else 87 + n).

(** [repr] of a str: quoted, with the quote, the backslash and the
    non-printable bytes escaped. *)
Fixpoint contains_char (c : ascii) (s : string) : bool :=
  match s with
  | EmptyString => false
  | String d s' => Ascii.eqb c d || contains_char c s'
  end.

Definition backslash : ascii := ascii_of_nat 92.
Definition dquote : ascii := ascii_of_nat 34.
Definition squote : ascii := ascii_of_nat 39.

Fixpoint escape (quote : ascii) (s : string) : string :=
  match s with
  | EmptyString => EmptyString
  | String c s' =>
      let n := nat_of_ascii c in
      (if Ascii.eqb c quote || Ascii.eqb c backslash then
         String backslash (String c "")
       else if Nat.eqb n 9 then String backslash "t"
       else if Nat.eqb n 10 then String backslash "n"
       else if Nat.eqb n 13 then String backslash "r"
       else if Nat.ltb n 32 || Nat.leb 127 n then
         String backslash
           (String "x" (String (digit_hex (n / 16))
                          (String (digit_hex (n mod 16)) "")))
       else String c "")
      ++ escape quote s'
  end.

Definition str_repr (s : string) : string :=
  let quote : ascii :=
    if contains_char squote s && negb (contains_char dquote s)
    then dquote else squote in
  String quote (escape quote s) ++ String quote "".

Definition decimal (z : Z) : string := NilZero.string_of_int (Z.to_int z).

Definition str_ (a : pyobj) : string :=
  match oval a with
  | VNone => "None"
  | VBool b => if b then "True" else "False"
  | VInt z => decimal z
  | VStr s => s
  end.

Definition repr_ (a : pyobj) : string :=
  match oval a with
  | VInt z =>
      if (- 2 ^ 63 <=? z) && (z <? 2 ^ 63) then decimal z
      else decimal z ++ "L"
  | VStr s => str_repr s
  | _ => str_ a
  end.

(** [textwrap.wrap(text, width)] with the defaults of [TextWrapper], for a
    text without tabs and hyphens: whitespace becomes spaces, the text is cut
    into words and runs of spaces, and lines are filled greedily; a word
    longer than the width is broken. *)
Definition blank (chunk : string) : bool :=
  match chunk with
  | String c _ => Ascii.eqb c " "
  | EmptyString => true
  end.

Fixpoint spaces_only (s : string) : string :=
  match s with
  | EmptyString => EmptyString
  | String c s' => String (if isspace c then " "%char else c) (spaces_only s')
  end.

Fixpoint split_chunks (s : string) : list string :=
  match s with
  | EmptyString => []
  | String c s' =>
      match split_chunks s' with
      | chunk :: rest =>
          if Bool.eqb (Ascii.eqb c " ") (blank chunk)
          then String c chunk :: rest
          else String c "" :: chunk :: rest
      | [] => [String c ""]
      end
  end.

Fixpoint fill (width cur_len : nat) (chunks : list string)
    : list string * list string :=
  match chunks with
  | chunk :: rest =>
      let l := String.length chunk in
      if Nat.leb (cur_len + l) width then
        let (line, rest') := fill width (cur_len + l) rest in
        (chunk :: line, rest')
      else ([], chunks)
  | [] => ([], [])
  end.

Definition drop_trailing_blank (cur_line : list string) : list string :=
  match rev cur_line with
  | last :: front => if blank last then rev front else cur_line
  | [] => cur_line
  end.

Fixpoint wrap_chunks (fuel width : nat) (started : bool)
    (chunks : list string) : list string :=
  match fuel, chunks with
  | O, _ | _, [] => []
  | S fuel', first :: others =>
      let chunks := if blank first && started then others else chunks in
      let (cur_line, rest) := fill width 0 chunks in
      let cur_len := String.length (String.concat "" cur_line) in
      let (cur_line, rest) :=
        match rest with
        | long :: rest' =>
            if Nat.ltb width (String.length long) then
              let space_left := (width - cur_len)%nat in
              ((cur_line ++ [substring 0 space_left long])%list,
               substring space_left (String.length long - space_left) long
                 :: rest')
            else (cur_line, rest)
        | [] => (cur_line, rest)
        end in
      match drop_trailing_blank cur_line with
      | [] => wrap_chunks fuel' width started rest
      | cur_line =>
          String.concat "" cur_line :: wrap_chunks fuel' width true rest
      end
  end.

Definition wrap (text : string) (width : Z) : result (list string) :=
  if width <=? 0 then
    Raise (Exc ValueError ("invalid width " ++ decimal width ++ " (must be > 0)"))
  else
    Ok (wrap_chunks (2 * String.length text + 2) (Z.to_nat width) false
          (split_chunks (spaces_only text))).

(** Modelled from the spec: [IndexedCollectable] is defined outside the
    module; by the data model a parameter keeps the name, doc and display
    index it was given, and its value slot is empty (None) until the
    constructor's own first assignment. *)
Definition base_init (index name doc : pyobj) : collectable pyobj :=
  Collectable (Obj 1 VNone) name doc index.

#[global] Instance cpython : Host pyobj := {
  py_None := Obj 1 VNone;
  py_is := is_;
  py_is_refl := is_refl;
  py_eq := fun a b => Ok (eq_ a b);
  py_ne := fun a b => NeScalar (negb (eq_ a b));
  py_lt := fun a b => Ok (match cmp a b with Lt => true | _ => false end);
  py_gt := fun a b => Ok (match cmp a b with Gt => true | _ => false end);
  py_isinstance_bool :=
    fun a => match oval a with VBool _ => true | _ => false end;
  py_hasattr_iter := fun _ => false;
  py_str := str_;
  py_repr := fun a => Ok (repr_ a);
  py_text := fun a => match oval a with VStr s => Some s | _ => None end;
  textwrap_wrap := wrap;
  py_debug := true;
  base_readonly := fun _ => false;
  IndexedCollectable_init := base_init
}.

(** Objects for the examples: identity and value. *)
Definition int (id : positive) (z : Z) : pyobj := Obj id (VInt z).
Definition str (id : positive) (s : string) : pyobj := Obj id (VStr s).
Definition none : pyobj := Obj 1 VNone.

End CPython.

(** ** Constraints and parameters for the examples *)

(** [EnsureRange(min=7, max=44)] and [EnsureChoice(('a', 'b'))] *)
Definition range_7_44 : constraint CPython.pyobj :=
  EnsureRange (CPython.int 2 7) (CPython.int 3 44).

Definition choice_a_b : constraint CPython.pyobj :=
  EnsureChoice [CPython.str 5 "a"; CPython.str 6 "b"].

(** [Parameter(5)] followed by [.value = 7] *)
Definition p_5_7 : parameter CPython.pyobj :=
  mkParameter [] [] (CPython.int 10 5) false None (CPython.int 11 7) true
    CPython.none CPython.none CPython.none.

(** [Parameter(1, ro=True, value=2)] *)
Definition p_readonly : parameter CPython.pyobj :=
  mkParameter [] [] (CPython.int 10 1) true None (CPython.int 11 2) false
    CPython.none CPython.none CPython.none.

(** [Parameter(1)] *)
Definition p_1 : parameter CPython.pyobj :=
  mkParameter [] [] (CPython.int 10 1) false None (CPython.int 10 1) false
    CPython.none CPython.none CPython.none.

(** A bound of [EnsureRange]: an int, or None for a side left open. *)
Definition bound (id : positive) (b : option Z) : CPython.pyobj :=
  match b with
  | Some z => CPython.int id z
  | None => CPython.none
  end.

(** A newline followed by whitespace occurs in [s]. *)
Fixpoint newline_then_space (s : string) : bool :=
  match s with
  | EmptyString => false
  | String c s' =>
      (Ascii.eqb c (ascii_of_nat 10) && starts_with_space s')
      || newline_then_space s'
  end.

(** ** Trees of checks, and sequences of operations *)

Section Structure.

Context {obj : Type} {host : Host obj}.

(** The children a combinator can call: the entries that are not the
    literal None. *)
Definition callable_children (constraints : list (option (constraint obj)))
    : list (option (constraint obj)) :=
  filter (fun c => match c with Some _ => true | None => false end)
    constraints.

(** A constraint built from the module's checking classes only:
    [EnsureValue], [EnsureBool], [EnsureChoice], [EnsureRange] and the two
    combinators over such constraints (and None). *)
Fixpoint checks_only (c : constraint obj) : bool :=
  match c with
  | EnsureValue | EnsureBool | EnsureChoice _ | EnsureRange _ _ => true
  | OrConstrainer constraints | AndConstrainer constraints =>
      forallb (fun c => match c with
                        | Some c' => checks_only c'
                        | None => true
                        end) constraints
  | Callable _ _ => false
  end.

(** Induction over a constraint and the constraints inside it. *)
Definition constraint_induction (P : constraint obj -> Prop)
    (HValue : P EnsureValue) (HBool : P EnsureBool)
    (HChoice : forall allowed, P (EnsureChoice allowed))
    (HRange : forall min max, P (EnsureRange min max))
    (HOr : forall constraints,
        Forall (fun c => match c with Some c' => P c' | None => True end)
          constraints ->
        P (OrConstrainer constraints))
    (HAnd : forall constraints,
        Forall (fun c => match c with Some c' => P c' | None => True end)
          constraints ->
        P (AndConstrainer constraints))
    (HCallable : forall f d, P (Callable f d)) :
  forall c, P c :=
  fix rec (c : constraint obj) : P c :=
    let children :=
      fix children (l : list (option (constraint obj)))
        : Forall (fun c => match c with Some c' => P c' | None => True end) l :=
        match l with
        | [] => Forall_nil _
        | x :: l' =>
            Forall_cons x
              (match x return match x with Some c' => P c' | None => True end
               with
               | Some c' => rec c'
               | None => I
               end)
              (children l')
        end in
    match c with
    | EnsureValue => HValue
    | EnsureBool => HBool
    | EnsureChoice allowed => HChoice allowed
    | EnsureRange min max => HRange min max
    | OrConstrainer constraints => HOr constraints (children constraints)
    | AndConstrainer constraints => HAnd constraints (children constraints)
    | Callable f d => HCallable f d
    end.

(** What a user does to a parameter after construction: assign to [value],
    call [reset_value()], assign to [default]. *)
Inductive operation : Type :=
| SetValue (val : obj)
| ResetValue
| SetDefault (value : obj).

Definition perform (o : operation) : method obj unit :=
  match o with
  | SetValue val => _set val false
  | ResetValue => reset_value
  | SetDefault value => _set_default value
  end.

(** The parameter after a sequence of operations, each exception caught by
    the caller: an operation that raises leaves the instance as it was at
    the raise, and the next one goes on from there. *)
Fixpoint perform_all (ops : list operation) (self : parameter obj)
    : parameter obj :=
  match ops with
  | [] => self
  | o :: rest => perform_all rest (fst (perform o self))
  end.

(** A child fails on [v]: calling it raises. *)
Definition fails_on (v : obj) (x : option (constraint obj)) : Prop :=
  exists e, call_child call x v = Raise e.

(** The value that [__init__] hands to the initial [_set]. *)
Definition initial_value (d : obj) (keywords : list (string * obj)) : obj :=
  match lookup "value" keywords with
  | Some v => if py_is v py_None then d else v
  | None => d
  end.

(** [r] is something the constraint of the parameter can return. *)
Definition returned_by (self : parameter obj) (r : obj) : Prop :=
  exists val, constrain self val = Ok r.

End Structure.

(** [Parameter(10, EnsureRange(min=7, max=44))] *)
Definition p_10_range : parameter CPython.pyobj :=
  mkParameter [] [] (CPython.int 10 10) false (Some range_7_44)
    (CPython.int 10 10) false CPython.none CPython.none CPython.none.

(** [Parameter(50, EnsureRange(min=7, max=44), value=10)] *)
Definition p_50_10 : parameter CPython.pyobj :=
  mkParameter [] [] (CPython.int 10 50) false (Some range_7_44)
    (CPython.int 11 10) false CPython.none CPython.none CPython.none.

(** [Parameter(1, EnsureRange(min=7, max=44), value=20, step=2, name='p')] *)
Definition p_step : parameter CPython.pyobj :=
  mkParameter ["step"] [("step", CPython.int 12 2)] (CPython.int 10 1) false
    (Some range_7_44) (CPython.int 11 20) false (CPython.str 5 "p")
    CPython.none CPython.none.

(** [Parameter(1, name='p', doc='d')] *)
Definition p_doc : parameter CPython.pyobj :=
  mkParameter [] [] (CPython.int 10 1) false None (CPython.int 10 1) false
    (CPython.str 5 "p") (CPython.str 6 "d") CPython.none.

(** A user at work: a refused value, an accepted one, a default out of
    range, a reset. *)
Definition session : list (operation (obj := CPython.pyobj)) :=
  [SetValue (CPython.int 20 50); SetValue (CPython.int 21 20);
   SetDefault (CPython.int 22 99); ResetValue].

(** * Properties *)

Section Properties.

Context {obj : Type} {host : Host obj}.

(** ** Combinators *)

Lemma bind_Ok {A} (r : result A) : (x <- r ;; Ok x) = r.
Proof. now destruct r. Qed.

Lemma call_And (constraints : list (option (constraint obj))) (v : obj) :
  call (AndConstrainer constraints) v = AndConstrainer_call call constraints v.
Proof. reflexivity. Qed.

Lemma call_Or (constraints : list (option (constraint obj))) (v : obj) :
  call (OrConstrainer constraints) v = OrConstrainer_call call constraints v.
Proof. reflexivity. Qed.

(** Once the input is known not to equal None, an [OrConstrainer] can only
    fail with its own [ValidationError]. *)
Lemma or_loop_Raise (constraints : list (option (constraint obj))) (v : obj)
    (e : exn) :
  or_loop call constraints v = Raise e ->
  e = Exc ValidationError "All given constraints are violated".
Proof.
  induction constraints as [|c rest IH]; simpl.
  - now intros [= <-].
  - destruct (call_child call c v); [discriminate | exact IH].
Qed.

(** C6: [AndConstrainer((c1, c2))(v)] is [c2(c1(v))]: when [c1] returns [v1]
    and [c2] returns [v2] on it, the result is [v2]; when [c1] raises, that
    very exception comes out, whatever stands in second place. *)
Theorem AndConstrainer_pipes (c1 c2 : constraint obj) (v : obj) :
  call (AndConstrainer [Some c1; Some c2]) v = (v1 <- call c1 v ;; call c2 v1)
  /\ (forall v1 v2,
        call c1 v = Ok v1 -> call c2 v1 = Ok v2 ->
        call (AndConstrainer [Some c1; Some c2]) v = Ok v2)
  /\ (forall e,
        call c1 v = Raise e ->
        forall c2' : option (constraint obj),
          call (AndConstrainer [Some c1; c2']) v = Raise e).
Proof.
  repeat split.
  - rewrite call_And. simpl. destruct (call c1 v) as [v1|e]; simpl; trivial.
    apply bind_Ok.
  - intros v1 v2 H1 H2. rewrite call_And. simpl. rewrite H1. simpl.
    now rewrite H2.
  - intros e H1 c2'. rewrite call_And. simpl. now rewrite H1.
Qed.

(** C1, amended: on an input that does not equal None,
    [OrConstrainer((c1, c2))] returns what [c1] returns, else what [c2]
    returns, else raises its own [ValidationError]; an input that equals
    None never reaches the children and, None not being listed, is refused
    with a [ValueError]. *)
Theorem OrConstrainer_pair (c1 c2 : constraint obj) (v : obj) :
  (py_eq v py_None = Ok false ->
   call (OrConstrainer [Some c1; Some c2]) v =
     match call c1 v with
     | Ok r => Ok r
     | Raise _ =>
         match call c2 v with
         | Ok r => Ok r
         | Raise _ =>
             Raise (Exc ValidationError "All given constraints are violated")
         end
     end)
  /\ (py_eq v py_None = Ok true ->
      call (OrConstrainer [Some c1; Some c2]) v =
        Raise (Exc ValueError "None is not an allowed value")).
Proof.
  split; intros H; rewrite call_Or; unfold OrConstrainer_call; rewrite H;
    simpl; reflexivity.
Qed.

(** ** The setter *)

(** C7: on a parameter that is not read-only, assigning a value whose
    constrained form does not differ from the current one (no element of
    the comparison array is true, or the comparison is false) changes
    nothing: the instance is the same and the call returns. *)
Theorem set_same_value_is_noop (self : parameter obj) (val val' : obj) :
  _ro self = false ->
  constrain self val = Ok val' ->
  differs (py_ne (_value self) val') = false ->
  _set val false self = (self, Ok tt).
Proof.
  intros Hro Hc Hd. unfold _set. now rewrite Hc, Hro, Hd.
Qed.

(** [_set] touches the value and the flag only. *)
Lemma _set_frame (val : obj) (init : bool) (self : parameter obj) :
  let self' := fst (_set val init self) in
  _ro self' = _ro self /\ _constraints self' = _constraints self
  /\ __default self' = __default self /\ name self' = name self
  /\ attributes self' = attributes self.
Proof.
  unfold _set. destruct (constrain self val); simpl; auto.
  destruct (_ro self && negb init); simpl; auto.
  destruct (differs _); simpl; auto.
Qed.

(** A write to a parameter that is not read-only, once the constraint has
    returned [val']. *)
Lemma _set_writable (val val' : obj) (self : parameter obj) :
  _ro self = false ->
  constrain self val = Ok val' ->
  _set val false self =
    (if differs (py_ne (_value self) val') then with_value val' true self
     else self, Ok tt).
Proof.
  intros Hro Hc. unfold _set. rewrite Hc, Hro. simpl.
  now destruct (differs _).
Qed.

(** A write that is not the initial one leaves a read-only parameter as it
    is and raises: the constraint's exception if it rejects the value,
    [RuntimeError] otherwise. *)
Lemma _set_readonly (val : obj) (self : parameter obj) :
  _ro self = true ->
  _set val false self =
    (self,
     match constrain self val with
     | Ok val' =>
         Raise (Exc RuntimeError
                  ("Attempt to set read-only parameter " ++ py_str (name self)
                   ++ " to " ++ py_str val'))
     | Raise e => Raise e
     end).
Proof.
  intros Hro. unfold _set. destruct (constrain self val); trivial.
  now rewrite Hro.
Qed.

(** The initial assignment does not look at the read-only flag. *)
Lemma _set_init_ro (val : obj) (a : list string) (kw : list (string * obj))
    (d : obj) (ro : bool) (c : option (constraint obj)) (v : obj) (s : bool)
    (n dc i : obj) :
  _set val true (mkParameter a kw d ro c v s n dc i) =
    match constrain (mkParameter a kw d false c v s n dc i) val with
    | Raise e => (mkParameter a kw d ro c v s n dc i, Raise e)
    | Ok val' =>
        if differs (py_ne v val') then
          (mkParameter a kw d ro c val' false n dc i, Ok tt)
        else (mkParameter a kw d ro c v s n dc i, Ok tt)
    end.
Proof.
  unfold _set, constrain. simpl. destruct (match c with Some _ => _ | None => _ end);
    trivial.
  now rewrite andb_false_r.
Qed.

Lemma init_assign_ro (d : obj) (c : option (constraint obj))
    (index value name doc : obj) (kwargs : list (string * obj)) :
  match init_assign d c true index value name doc kwargs,
        init_assign d c false index value name doc kwargs with
  | Ok p, Ok q => _value p = _value q /\ _isset p = false /\ _ro p = true
  | Raise e, Raise e' => e = e'
  | _, _ => False
  end.
Proof.
  unfold init_assign. destruct (set_kwargs kwargs); simpl; trivial.
  destruct (py_is value py_None); simpl __default; rewrite !_set_init_ro;
    destruct (constrain _ _); trivial; destruct (differs _); simpl; auto.
Qed.

Lemma init_assign_fields (d : obj) (c : option (constraint obj)) (ro : bool)
    (index value name doc : obj) (kwargs : list (string * obj))
    (p : parameter obj) :
  init_assign d c ro index value name doc kwargs = Ok p ->
  _ro p = ro /\ _constraints p = c /\ __default p = d
  /\ attributes p = kwargs.
Proof.
  unfold init_assign. destruct (set_kwargs kwargs); simpl; [|discriminate].
  match goal with
  | |- context [if ?b then _set ?x true ?s else _set ?y true ?s] =>
      destruct b;
      [ pose proof (_set_frame x true s) as F; destruct (_set x true s) as [q [|]]
      | pose proof (_set_frame y true s) as F; destruct (_set y true s) as [q [|]] ]
  end; try discriminate; intros [= <-]; simpl in F; tauto.
Qed.

Lemma __init___Ok (d : obj) (c : option (constraint obj)) (ro : bool)
    (index value name doc : obj) (kwargs : list (string * obj))
    (p : parameter obj) :
  __init__ d c ro index value name doc kwargs = Ok p ->
  init_assign d c ro index value name doc kwargs = Ok p.
Proof.
  unfold __init__. destruct (init_assign _ _ _ _ _ _ _ _); simpl;
    [|discriminate].
  destruct py_debug; [destruct (has_key _ _)|]; now intros [= <-].
Qed.

Lemma Parameter_new_Ok (d : obj) (c : option (constraint obj)) (ro : bool)
    (keywords : list (string * obj)) (p : parameter obj) :
  Parameter_new d c ro keywords = Ok p ->
  _ro p = ro /\ _constraints p = c /\ __default p = d
  /\ attributes p = extra keywords.
Proof.
  unfold Parameter_new. destruct (find _ _) as [[k ?]|]; [discriminate|].
  intros H. apply __init___Ok in H. now apply init_assign_fields in H.
Qed.

(** C2, amended: the read-only flag plays no part in construction, which
    succeeds or fails exactly as for a parameter that is not read-only and
    installs the same value, the flag [_isset] left false; every later
    write through the setter leaves the parameter as it is and raises:
    [RuntimeError] when the constraint accepts the value or there is none,
    equal to the current value or not, and the constraint's own exception
    when it rejects the value. *)
Theorem readonly_parameter (d : obj) (c : option (constraint obj))
    (keywords : list (string * obj)) :
  match Parameter_new d c true keywords, Parameter_new d c false keywords with
  | Ok p, Ok q => _value p = _value q /\ _isset p = false /\ _ro p = true
  | Raise e, Raise e' => e = e'
  | _, _ => False
  end
  /\ forall (p : parameter obj) (v : obj),
       Parameter_new d c true keywords = Ok p ->
       _set v false p =
         (p,
          match constrain p v with
          | Ok v' =>
              Raise (Exc RuntimeError
                       ("Attempt to set read-only parameter "
                        ++ py_str (name p) ++ " to " ++ py_str v'))
          | Raise e => Raise e
          end).
Proof.
  split.
  - unfold Parameter_new. destruct (find _ _) as [[k ?]|]; trivial.
    unfold __init__.
    match goal with
    | |- context [init_assign d c true ?i ?v ?n ?dc ?kw] =>
        pose proof (init_assign_ro d c i v n dc kw) as H;
        destruct (init_assign d c true i v n dc kw);
        destruct (init_assign d c false i v n dc kw)
    end; simpl; try tauto.
    destruct py_debug; [destruct (has_key _ _)|]; tauto.
  - intros p v H. apply Parameter_new_Ok in H. now apply _set_readonly.
Qed.

(** ** Resetting and changing the default *)

(** C3, amended: on a parameter that is not read-only, whose value is not
    its default object and whose constraint (if any) returns [d'] for the
    default, [reset_value] returns with [_isset] true and with the value
    [d'] installed, or with the value left in place because it did not
    compare different from [d']. *)
Theorem reset_value_spec (self : parameter obj) (d' : obj) :
  _ro self = false ->
  is_default self = false ->
  constrain self (default self) = Ok d' ->
  exists self',
    reset_value self = (self', Ok tt)
    /\ _isset self' = true
    /\ default self' = default self
    /\ (_value self' = d'
        \/ (_value self' = _value self
            /\ differs (py_ne (_value self) d') = false)).
Proof.
  intros Hro Hid Hc. unfold reset_value. rewrite Hid, Hro. simpl andb.
  cbv iota.
  rewrite (@_set_writable (__default (with_isset true self)) d'
             (with_isset true self) Hro Hc).
  change (_value (with_isset true self)) with (_value self).
  destruct (differs (py_ne (_value self) d')) eqn:Hd; eexists;
    repeat split; simpl; auto.
Qed.

(** C4, amended: [_set_default] always replaces the stored default.  If the
    value was not the old default object, nothing else changes.  If it was:
    on a read-only parameter the value stays and [_isset] becomes false; on
    one that is not read-only and whose constraint returns [d'] for the new
    default, [_isset] becomes false and the value is [d'], or is left in
    place because it already is the new default object or does not compare
    different from [d']. *)
Theorem _set_default_spec (self : parameter obj) (newd : obj) :
  default (fst (_set_default newd self)) = newd
  /\ (is_default self = false ->
      _set_default newd self = (with_default newd self, Ok tt))
  /\ (is_default self = true -> _ro self = true ->
      _set_default newd self =
        (with_isset false (with_default newd self), Ok tt))
  /\ (is_default self = true -> _ro self = false ->
      forall d', constrain self newd = Ok d' ->
      snd (_set_default newd self) = Ok tt
      /\ _isset (fst (_set_default newd self)) = false
      /\ (_value (fst (_set_default newd self)) = d'
          \/ (_value (fst (_set_default newd self)) = _value self
              /\ (py_is (_value self) newd = true
                  \/ differs (py_ne (_value self) d') = false)))).
Proof.
  unfold _set_default, reset_value.
  change (is_default (with_default newd self)) with (py_is (_value self) newd).
  change (_ro (with_default newd self)) with (_ro self).
  split; [|split; [|split]].
  - destruct (is_default self); trivial.
    destruct (negb (py_is (_value self) newd) && negb (_ro self)); trivial.
    match goal with
    | |- context [_set ?x false ?s] =>
        pose proof (_set_frame x false s) as F; destruct (_set x false s) as [q [|]]
    end; simpl in *; tauto.
  - now intros ->.
  - intros -> ->. now rewrite andb_false_r.
  - intros -> Hro d' Hc. rewrite Hro.
    destruct (py_is (_value self) newd) eqn:His; simpl; [tauto|].
    rewrite (@_set_writable newd d'
               (with_isset true (with_default newd self)) Hro Hc).
    change (_value (with_isset true (with_default newd self)))
      with (_value self).
    destruct (differs (py_ne (_value self) d')) eqn:Hd; simpl; tauto.
Qed.

(** ** Construction *)

Lemma extra_not_declared (k : string) (keywords : list (string * obj)) :
  is_declared k = true -> has_key k (extra keywords) = false.
Proof.
  intros Hk. unfold extra, has_key.
  induction keywords as [|[k' v] rest IH]; simpl; trivial.
  destruct (is_declared k') eqn:Hk'; simpl; trivial.
  rewrite IH, orb_false_r. destruct (String.eqb_spec k k'); trivial.
  congruence.
Qed.

(** C5, amended: a keyword [value] is the initial value and never reaches
    the metadata, so no constructed parameter has a metadata key "value";
    the name the constructor refuses is "val".  With [__debug__] on, a
    construction whose metadata holds "val" fails: with the [ValueError]
    "'val' property name is illegal." once the metadata is stored and the
    initial assignment done, or with the exception one of these raised
    before.  Without "val" in the metadata the closing check lets the
    construction through as it stands. *)
Theorem reserved_key (d : obj) (c : option (constraint obj)) (ro : bool) :
  (forall keywords p,
     Parameter_new d c ro keywords = Ok p ->
     has_key "value" (attributes p) = false
     /\ (py_debug = true -> has_key "val" (attributes p) = false))
  /\ (forall index value name doc kwargs,
        py_debug = true -> has_key "val" kwargs = true ->
        __init__ d c ro index value name doc kwargs =
          (_ <- init_assign d c ro index value name doc kwargs ;;
           Raise val_is_illegal))
  /\ (forall index value name doc kwargs,
        has_key "val" kwargs = false ->
        __init__ d c ro index value name doc kwargs =
          init_assign d c ro index value name doc kwargs).
Proof.
  split; [|split].
  - intros keywords p H.
    destruct (Parameter_new_Ok _ _ _ _ H) as (_ & _ & _ & Ha). rewrite Ha.
    split; [now apply extra_not_declared|].
    intros Hdbg. revert H. unfold Parameter_new.
    destruct (find _ _) as [[k ?]|]; [discriminate|].
    fold (extra keywords). unfold __init__.
    destruct (init_assign _ _ _ _ _ _ _ _); simpl; [|discriminate].
    rewrite Hdbg. now destruct (has_key "val" (extra keywords)).
  - intros index value name doc kwargs Hdbg Hk. unfold __init__.
    now rewrite Hdbg, Hk.
  - intros index value name doc kwargs Hk. unfold __init__. rewrite Hk.
    destruct py_debug; apply bind_Ok.
Qed.


(** ** Kinds of failure *)

Lemma EnsureRange_Raise (min max v : obj) (e : exn) :
  call (EnsureRange min max) v = Raise e ->
  e = Exc ValueError ("Value must be at least " ++ py_str min)
  \/ e = Exc ValueError ("Value must be at most " ++ py_str max)
  \/ py_lt v min = Raise e \/ py_gt v max = Raise e.
Proof.
  simpl. unfold EnsureRange_call.
  destruct (py_is min py_None); simpl.
  - destruct (py_is max py_None); simpl; [discriminate|].
    destruct (py_gt v max) as [[|]|e']; simpl; intros [= <-]; auto.
  - destruct (py_lt v min) as [[|]|e']; simpl; try (intros [= <-]; auto).
    destruct (py_is max py_None); simpl; [discriminate|].
    destruct (py_gt v max) as [[|]|e'']; simpl; intros [= <-]; auto.
Qed.

Lemma EnsureChoice_Raise (allowed : list obj) (v : obj) (e : exn) :
  call (EnsureChoice allowed) v = Raise e ->
  exc_type e = ValueError
  \/ py_in v allowed = Raise e \/ tuple_str allowed = Raise e.
Proof.
  simpl. unfold EnsureChoice_call.
  destruct (py_in v allowed) as [[|]|e']; simpl; try (intros [= <-]; auto).
  destruct (tuple_str allowed); simpl; intros [= <-]; auto.
Qed.

Lemma EnsureBool_Raise (v : obj) (e : exn) :
  call EnsureBool v = Raise e ->
  e = Exc ValueError "Value must be of type bool".
Proof.
  simpl. unfold EnsureBool_call. destruct (py_isinstance_bool v);
    now intros [= <-].
Qed.

Lemma OrConstrainer_Raise (constraints : list (option (constraint obj)))
    (v : obj) (e : exn) :
  py_eq v py_None = Ok false ->
  call (OrConstrainer constraints) v = Raise e ->
  e = Exc ValidationError "All given constraints are violated".
Proof.
  intros Hn. rewrite call_Or. unfold OrConstrainer_call. rewrite Hn. simpl.
  apply or_loop_Raise.
Qed.

(** ** Documentation *)

(** The first line [_paramdoc] produces is the name alone, whatever the
    attributes of the parameter: its test [hasattr(paramsdoc,
    'allowedtype')] asks the string, not the parameter. *)
Lemma _paramdoc_first_line (indent : string) (width : Z)
    (self : parameter obj) :
  exists lines,
    _paramdoc indent width self
      = Ok (String.concat newline (py_str (name self) :: lines)).
Proof.
  unfold _paramdoc.
  replace (str_hasattr (py_str (name self)) "allowedtype") with false
    by (unfold str_hasattr; vm_compute; reflexivity).
  simpl bind. destruct (paramdoc_body indent width self) as [lines|e].
  - now exists lines.
  - now exists [].
Qed.

End Properties.

(** * The module on CPython objects *)

Example Parameter_5 :
  exists p,
    Parameter_new (CPython.int 10 5) None false [] = Ok p
    /\ value p = CPython.int 10 5 /\ is_default p = true /\ _isset p = false
    /\ _set (CPython.int 11 7) false p = (p_5_7, Ok tt)
    /\ is_default p_5_7 = false /\ equal_default p_5_7 = Ok false.
Proof. eexists. repeat split. Qed.

Example EnsureRange_10 :
  call range_7_44 (CPython.int 4 10) = Ok (CPython.int 4 10).
Proof. reflexivity. Qed.

Example EnsureChoice_a :
  call choice_a_b (CPython.str 4 "a") = Ok (CPython.str 4 "a").
Proof. reflexivity. Qed.

Example OrConstrainer_None_listed :
  call (OrConstrainer [Some range_7_44; None]) CPython.none = Ok CPython.none.
Proof. reflexivity. Qed.

(** C6, at work: 10 passes the range and then the choice among 10 and 20;
    50 stops at the range, whose exception comes out. *)
Lemma AndConstrainer_pipes_witness :
  call (AndConstrainer
          [Some range_7_44;
           Some (EnsureChoice [CPython.int 8 10; CPython.int 9 20])])
       (CPython.int 4 10) = Ok (CPython.int 4 10)
  /\ call (AndConstrainer [Some range_7_44; Some choice_a_b])
          (CPython.int 4 50)
     = Raise (Exc ValueError "Value must be at most 44").
Proof.
  split.
  - apply (proj1 (proj2 (AndConstrainer_pipes range_7_44
                           (EnsureChoice [CPython.int 8 10; CPython.int 9 20])
                           (CPython.int 4 10))) (CPython.int 4 10));
      reflexivity.
  - apply (proj2 (proj2 (AndConstrainer_pipes range_7_44 choice_a_b
                           (CPython.int 4 50)))).
    reflexivity.
Defined.

(** C1 as stated fails on None: [EnsureValue] returns None as it is, yet
    [OrConstrainer((EnsureValue(), EnsureValue()))] refuses None, and with a
    [ValueError]. *)
Lemma OrConstrainer_refuses_None :
  call EnsureValue CPython.none = Ok CPython.none
  /\ call (OrConstrainer [Some EnsureValue; Some EnsureValue]) CPython.none
     = Raise (Exc ValueError "None is not an allowed value").
Proof. split; reflexivity. Qed.

Lemma OrConstrainer_pair_witness :
  py_eq (CPython.str 4 "a") py_None = Ok false
  /\ call (OrConstrainer [Some range_7_44; Some choice_a_b])
          (CPython.str 4 "a") = Ok (CPython.str 4 "a").
Proof.
  split; [reflexivity|].
  etransitivity.
  - apply (proj1 (OrConstrainer_pair range_7_44 choice_a_b
                    (CPython.str 4 "a"))).
    reflexivity.
  - reflexivity.
Defined.

(** C7, at work: assigning another 7 to a parameter that holds 7. *)
Lemma set_same_value_is_noop_witness :
  _set (CPython.int 12 7) false p_5_7 = (p_5_7, Ok tt).
Proof.
  apply (@set_same_value_is_noop _ _ p_5_7 (CPython.int 12 7)
           (CPython.int 12 7)); reflexivity.
Defined.

(** C2 as stated fails where a constraint is present:
    [Parameter(50, EnsureRange(min=7, max=44), ro=True)] cannot be
    constructed, and on [Parameter(10, EnsureRange(min=7, max=44), ro=True)]
    the write [.value = 50] raises the range's [ValueError], not
    [RuntimeError]. *)
Lemma readonly_write_ValueError :
  Parameter_new (CPython.int 10 50) (Some range_7_44) true []
    = Raise (Exc ValueError "Value must be at most 44")
  /\ exists p,
       Parameter_new (CPython.int 10 10) (Some range_7_44) true [] = Ok p
       /\ _set (CPython.int 4 50) false p
          = (p, Raise (Exc ValueError "Value must be at most 44")).
Proof. split; [reflexivity|]. eexists. split; reflexivity. Qed.

Lemma readonly_parameter_witness :
  Parameter_new (CPython.int 10 1) None true [("value", CPython.int 11 2)]
    = Ok p_readonly
  /\ _set (CPython.int 12 3) false p_readonly
     = (p_readonly,
        Raise (Exc RuntimeError
                 "Attempt to set read-only parameter None to 3"))
  /\ _set (CPython.int 11 2) false p_readonly
     = (p_readonly,
        Raise (Exc RuntimeError
                 "Attempt to set read-only parameter None to 2")).
Proof.
  split; [reflexivity|].
  split.
  - exact (proj2 (readonly_parameter (CPython.int 10 1) None
                    [("value", CPython.int 11 2)])
             p_readonly (CPython.int 12 3) eq_refl).
  - exact (proj2 (readonly_parameter (CPython.int 10 1) None
                    [("value", CPython.int 11 2)])
             p_readonly (CPython.int 11 2) eq_refl).
Defined.

(** C3 as stated fails where the constraint has a say on the default: on
    [Parameter(50, EnsureRange(min=7, max=44), value=10)], [reset_value()]
    raises and leaves the value 10, with [_isset] already true. *)
Lemma reset_value_keeps_10 :
  exists p,
    Parameter_new (CPython.int 10 50) (Some range_7_44) false
      [("value", CPython.int 11 10)] = Ok p
    /\ _ro p = false /\ is_default p = false
    /\ reset_value p
       = (with_isset true p,
          Raise (Exc ValueError "Value must be at most 44"))
    /\ value (fst (reset_value p)) = CPython.int 11 10
    /\ default (fst (reset_value p)) = CPython.int 10 50
    /\ equal_default (fst (reset_value p)) = Ok false.
Proof. eexists. repeat split. Qed.

Lemma reset_value_spec_witness :
  exists self',
    reset_value p_5_7 = (self', Ok tt)
    /\ _isset self' = true
    /\ default self' = CPython.int 10 5
    /\ (_value self' = CPython.int 10 5
        \/ (_value self' = _value p_5_7
            /\ differs (py_ne (_value p_5_7) (CPython.int 10 5)) = false)).
Proof.
  apply (@reset_value_spec _ _ p_5_7 (CPython.int 10 5)); reflexivity.
Defined.

(** C4 as stated fails on a read-only parameter: on [Parameter(1,
    ro=True)], whose value is the default object, [.default = 2] replaces
    the default and leaves the value 1. *)
Lemma set_default_readonly_keeps_value :
  exists p,
    Parameter_new (CPython.int 10 1) None true [] = Ok p
    /\ is_default p = true
    /\ snd (_set_default (CPython.int 11 2) p) = Ok tt
    /\ default (fst (_set_default (CPython.int 11 2) p)) = CPython.int 11 2
    /\ value (fst (_set_default (CPython.int 11 2) p)) = CPython.int 10 1.
Proof. eexists. repeat split. Qed.

Lemma _set_default_spec_witness :
  snd (_set_default (CPython.int 11 2) p_1) = Ok tt
  /\ _isset (fst (_set_default (CPython.int 11 2) p_1)) = false
  /\ (_value (fst (_set_default (CPython.int 11 2) p_1)) = CPython.int 11 2
      \/ (_value (fst (_set_default (CPython.int 11 2) p_1)) = _value p_1
          /\ (py_is (_value p_1) (CPython.int 11 2) = true
              \/ differs (py_ne (_value p_1) (CPython.int 11 2)) = false))).
Proof.
  apply (proj2 (proj2 (proj2 (_set_default_spec p_1 (CPython.int 11 2)))));
    reflexivity.
Defined.

(** C5 as stated fails both ways: [Parameter(1, value=4)] is constructed,
    the keyword being the initial value and no metadata; and
    [Parameter(1, val=4)], which has no key "value", is refused. *)
Lemma value_keyword_accepted :
  (exists p,
     Parameter_new (CPython.int 10 1) None false [("value", CPython.int 3 4)]
       = Ok p
     /\ value p = CPython.int 3 4 /\ attributes p = [])
  /\ Parameter_new (CPython.int 10 1) None false [("val", CPython.int 3 4)]
     = Raise (Exc ValueError "'val' property name is illegal.").
Proof. split; [eexists; repeat split|reflexivity]. Qed.

Lemma reserved_key_witness :
  __init__ (CPython.int 10 1) None false CPython.none CPython.none
    CPython.none CPython.none [("val", CPython.int 3 4)]
  = Raise val_is_illegal
  /\ __init__ (CPython.int 10 1) None false CPython.none CPython.none
       CPython.none CPython.none [("step", CPython.int 3 4)]
     = init_assign (CPython.int 10 1) None false CPython.none CPython.none
         CPython.none CPython.none [("step", CPython.int 3 4)].
Proof.
  split.
  - etransitivity.
    + apply (proj1 (proj2 (reserved_key (CPython.int 10 1) None false)));
        reflexivity.
    + reflexivity.
  - apply (proj2 (proj2 (reserved_key (CPython.int 10 1) None false))).
    reflexivity.
Defined.





(** C9 fails on the code: [_paramdoc] starts with the bare name whatever
    the attributes, and for [Parameter(1, name='p', doc='d',
    allowedtype='int')] it returns the name and the doc paragraph, without
    the annotation that the attribute [allowedtype] calls for. *)
Theorem _paramdoc_ignores_allowedtype :
  (forall (obj : Type) (host : Host obj) indent width (self : parameter obj),
     exists lines,
       _paramdoc indent width self
         = Ok (String.concat newline (py_str (name self) :: lines)))
  /\ exists p,
       Parameter_new (CPython.int 10 1) None false
         [("name", CPython.str 5 "p"); ("doc", CPython.str 6 "d");
          ("allowedtype", CPython.str 7 "int")] = Ok p
       /\ getattr p "allowedtype" = Ok (CPython.str 7 "int")
       /\ _paramdoc "  " 70 p = Ok ("p" ++ newline ++ "  d. (Default: 1)").
Proof.
  split.
  - intros obj host indent width self. apply _paramdoc_first_line.
  - eexists. repeat split.
Qed.

(** * Further properties of the constraints *)

Section Combinators.

Context {obj : Type} {host : Host obj}.

Local Open Scope list_scope.

Implicit Types (c : constraint obj) (v r : obj)
  (constraints pre post : list (option (constraint obj))).

Lemma AndConstrainer_call_app constraints1 constraints2 v :
  AndConstrainer_call call (constraints1 ++ constraints2) v =
    (v1 <- AndConstrainer_call call constraints1 v ;;
     AndConstrainer_call call constraints2 v1).
Proof.
  revert v. induction constraints1 as [|x rest IH]; intros v; simpl; trivial.
  destruct (call_child call x v); simpl; auto.
Qed.

(** X1: an [AndConstrainer] over a concatenation runs the first part and
    hands its result to the second; nesting two [AndConstrainer]s in a
    third is the same as one flat sequence. *)
Theorem AndConstrainer_concat constraints1 constraints2 v :
  call (AndConstrainer (constraints1 ++ constraints2)) v =
    (v1 <- call (AndConstrainer constraints1) v ;;
     call (AndConstrainer constraints2) v1)
  /\ call (AndConstrainer [Some (AndConstrainer constraints1);
                           Some (AndConstrainer constraints2)]) v =
     call (AndConstrainer (constraints1 ++ constraints2)) v.
Proof.
  rewrite !call_And, AndConstrainer_call_app. split; trivial.
  simpl. destruct (AndConstrainer_call call constraints1 v); simpl; trivial.
  apply bind_Ok.
Qed.

(** X2: an [AndConstrainer] that holds the literal None never returns: if
    the children before None all return, calling None raises [TypeError];
    otherwise the exception of the first failing child comes out. *)
Theorem AndConstrainer_with_None pre post v :
  call (AndConstrainer (pre ++ None :: post)) v =
    match call (AndConstrainer pre) v with
    | Ok _ => Raise (Exc TypeError "'NoneType' object is not callable")
    | Raise e => Raise e
    end.
Proof.
  rewrite !call_And, AndConstrainer_call_app.
  now destruct (AndConstrainer_call call pre v).
Qed.

Lemma or_loop_skips pre constraints v :
  Forall (fails_on v) pre ->
  or_loop call (pre ++ constraints) v = or_loop call constraints v.
Proof.
  induction 1 as [|x pre [e He] _ IH]; simpl; trivial. now rewrite He.
Qed.

Lemma or_loop_Ok constraints v r :
  or_loop call constraints v = Ok r ->
  exists pre c post,
    constraints = pre ++ Some c :: post
    /\ Forall (fails_on v) pre /\ call c v = Ok r.
Proof.
  induction constraints as [|x rest IH]; simpl; [discriminate|].
  destruct (call_child call x v) as [r'|e] eqn:Hx.
  - intros [= ->]. destruct x as [c|]; [|discriminate].
    now exists [], c, rest.
  - intros H. destruct (IH H) as (pre & c & post & -> & Hpre & Hc).
    exists (x :: pre), c, post. repeat split; trivial.
    constructor; trivial. now exists e.
Qed.

Lemma or_loop_all_fail constraints v :
  Forall (fails_on v) constraints ->
  or_loop call constraints v =
    Raise (Exc ValidationError "All given constraints are violated").
Proof.
  intros H. rewrite <- (app_nil_r constraints). now rewrite or_loop_skips.
Qed.

(** X3: on an input that does not equal None, an [OrConstrainer] with any
    number of children returns [r] exactly when some child returns [r] and
    every child before it fails, and raises [ValidationError] exactly when
    every child fails. *)
Theorem OrConstrainer_first_success constraints v :
  py_eq v py_None = Ok false ->
  (forall r,
     call (OrConstrainer constraints) v = Ok r <->
     exists pre c post,
       constraints = pre ++ Some c :: post
       /\ Forall (fails_on v) pre /\ call c v = Ok r)
  /\ (call (OrConstrainer constraints) v =
        Raise (Exc ValidationError "All given constraints are violated")
      <-> Forall (fails_on v) constraints).
Proof.
  intros Hn. rewrite call_Or. unfold OrConstrainer_call. rewrite Hn. simpl.
  split; [intros r|]; split.
  - apply or_loop_Ok.
  - intros (pre & c & post & -> & Hpre & Hc).
    rewrite or_loop_skips by trivial. simpl. now rewrite Hc.
  - induction constraints as [|x rest IH]; simpl; [constructor|].
    destruct (call_child call x v) as [r'|e] eqn:Hx; [discriminate|].
    intros H. constructor; [now exists e | auto].
  - apply or_loop_all_fail.
Qed.

Lemma or_loop_callable_children constraints v :
  or_loop call (callable_children constraints) v = or_loop call constraints v.
Proof.
  induction constraints as [|[c|] rest IH]; simpl; trivial.
  now rewrite IH.
Qed.

(** X4: the literal None among the children of an [OrConstrainer] matters
    for an input that equals None and for no other: such an input comes
    back as None if the literal is listed and is refused with [ValueError]
    if not, whatever the children are; any other input is treated as if
    the literal were not there. *)
Theorem None_literal_in_OrConstrainer constraints v :
  (py_eq v py_None = Ok true ->
   call (OrConstrainer constraints) v =
     if has_None constraints then Ok py_None
     else Raise (Exc ValueError "None is not an allowed value"))
  /\ (py_eq v py_None = Ok false ->
      call (OrConstrainer constraints) v =
        call (OrConstrainer (callable_children constraints)) v).
Proof.
  rewrite !call_Or. unfold OrConstrainer_call.
  split; intros ->; simpl; trivial.
  now rewrite or_loop_callable_children.
Qed.

(** X5: a constraint built from the module's checks alone never converts:
    when it returns, it returns the object it was given, or None. *)
Theorem checks_return_input c :
  checks_only c = true ->
  forall v r, call c v = Ok r -> r = v \/ r = py_None.
Proof.
  induction c as [| |allowed|min max|constraints IH|constraints IH|f d]
    using constraint_induction; simpl; intros Hc v r.
  - intros [= <-]. now left.
  - unfold EnsureBool_call. destruct (py_isinstance_bool v); [|discriminate].
    intros [= <-]. now left.
  - unfold EnsureChoice_call.
    destruct (py_in v allowed) as [[|]|]; simpl; try discriminate.
    + intros [= <-]. now left.
    + destruct (tuple_str allowed); discriminate.
  - unfold EnsureRange_call.
    destruct (negb (py_is min py_None)); simpl;
      [destruct (py_lt v min) as [[|]|]; simpl; try discriminate|];
      (destruct (negb (py_is max py_None)); simpl;
       [destruct (py_gt v max) as [[|]|]; simpl; try discriminate|]);
      intros [= <-]; now left.
  - unfold OrConstrainer_call.
    destruct (py_eq v py_None) as [[|]|]; simpl; try discriminate.
    + destruct (has_None constraints); [|discriminate].
      intros [= <-]. now right.
    + intros H. apply or_loop_Ok in H.
      destruct H as (pre & c & post & -> & _ & H).
      rewrite forallb_app in Hc. apply andb_prop in Hc as [_ Hc].
      simpl in Hc. apply andb_prop in Hc as [Hc _].
      apply Forall_app in IH as [_ IH]. inversion IH; subst. eauto.
  - revert v. induction constraints as [|x rest IHrest]; intros v; simpl.
    + intros [= <-]. now left.
    + simpl in Hc. apply andb_prop in Hc as [Hx Hrest].
      inversion IH as [|? ? IHx IH']; subst.
      destruct x as [c|]; simpl; [|discriminate].
      destruct (call c v) as [v1|] eqn:Hv1; simpl; [|discriminate].
      intros H. destruct (IHrest IH' Hrest v1 H) as [->| ->]; eauto.
  - discriminate.
Qed.

End Combinators.

(** * Further properties of parameters *)

Section Parameters.

Context {obj : Type} {host : Host obj}.

Implicit Types (self p : parameter obj) (val v d : obj)
  (keywords kwargs : list (string * obj)) (ops : list (operation (obj := obj))).

Local Open Scope list_scope.

Lemma lookup_extra k keywords :
  is_declared k = false -> lookup k (extra keywords) = lookup k keywords.
Proof.
  intros Hk. unfold extra.
  induction keywords as [|[k' v] rest IH]; simpl; trivial.
  destruct (String.eqb_spec k k') as [<-|Hne].
  - rewrite Hk. simpl. now rewrite String.eqb_refl.
  - destruct (is_declared k'); simpl; trivial.
    destruct (String.eqb_spec k k'); [contradiction|trivial].
Qed.

Lemma init_assign_spec d (c : option (constraint obj)) ro index value nm dc
    kwargs p :
  init_assign d c ro index value nm dc kwargs = Ok p ->
  let base := IndexedCollectable_init index nm dc in
  let initial := if py_is value py_None then d else value in
  _isset p = false /\ _additional_props p = map fst kwargs
  /\ name p = c_name base /\ __doc__ p = c_doc base
  /\ exists val',
       constrain p initial = Ok val'
       /\ (_value p = val'
           \/ (_value p = c_value base
               /\ differs (py_ne (c_value base) val') = false)).
Proof.
  unfold init_assign. destruct (set_kwargs kwargs); simpl; [|discriminate].
  destruct (py_is value py_None); simpl __default; rewrite _set_init_ro;
    unfold constrain; simpl;
    (destruct (match c with Some _ => _ | None => _ end) as [val'|] eqn:Hc;
     [|discriminate]);
    destruct (differs _) eqn:Hd; intros [= <-]; simpl; repeat split;
    exists val'; rewrite Hc; auto.
Qed.


(** X7: a write that raises changes nothing, whether it is the initial one
    or not; and what it raises is the exception of the constraint, or, on a
    read-only parameter after construction, [RuntimeError]. *)
Theorem _set_raises_unchanged val (init : bool) self e :
  snd (_set val init self) = Raise e ->
  fst (_set val init self) = self
  /\ (constrain self val = Raise e
      \/ (_ro self = true /\ init = false /\ exc_type e = RuntimeError)).
Proof.
  unfold _set. destruct (constrain self val) as [val'|e']; simpl.
  - destruct (_ro self) eqn:Hro, init; simpl;
      try (destruct (differs _); discriminate).
    intros [= <-]. auto.
  - intros [= <-]. auto.
Qed.

(** X8: assigning the same value twice in a row is assigning it once,
    provided the constrained value does not compare different from
    itself. *)
Theorem _set_twice val val' self :
  _ro self = false ->
  constrain self val = Ok val' ->
  differs (py_ne val' val') = false ->
  _set val false (fst (_set val false self)) = (fst (_set val false self), Ok tt).
Proof.
  intros Hro Hc Hrefl. rewrite (_set_writable val self Hro Hc). simpl.
  destruct (differs (py_ne (_value self) val')) eqn:Hd.
  - rewrite (_set_writable val (with_value val' true self) Hro Hc).
    change (_value (with_value val' true self)) with val'. now rewrite Hrefl.
  - now rewrite (_set_writable val self Hro Hc), Hd.
Qed.

Lemma checks_return_input_EnsureRange (min max val r : obj) :
  call (EnsureRange min max) val = Ok r -> r = val.
Proof.
  simpl. unfold EnsureRange_call.
  destruct (negb (py_is min py_None)); simpl;
    [destruct (py_lt val min) as [[|]|]; simpl; try discriminate|];
    (destruct (negb (py_is max py_None)); simpl;
     [destruct (py_gt val max) as [[|]|]; simpl; try discriminate|]);
    now intros [= <-].
Qed.

(** A write to a parameter that is not read-only raises only what the
    constraint raises, and then changes nothing. *)
Lemma _set_writable_Raise val self e :
  _ro self = false ->
  snd (_set val false self) = Raise e ->
  fst (_set val false self) = self /\ constrain self val = Raise e.
Proof.
  intros Hro. unfold _set. destruct (constrain self val); simpl.
  - rewrite Hro. simpl. destruct (differs _); discriminate.
  - now intros [= <-].
Qed.

Lemma perform_readonly (o : operation) self :
  _ro self = true ->
  _ro (fst (perform o self)) = true
  /\ _value (fst (perform o self)) = _value self
  /\ _constraints (fst (perform o self)) = _constraints self.
Proof.
  intros Hro. destruct o as [val| |d]; simpl.
  - now rewrite _set_readonly.
  - unfold reset_value. now rewrite Hro, andb_false_r.
  - unfold _set_default, reset_value.
    change (_ro (with_default d self)) with (_ro self).
    rewrite Hro, andb_false_r. now destruct (is_default self).
Qed.

(** X9: nothing a user does to a read-only parameter after construction,
    in any order and however often, changes its value: not an assignment,
    not [reset_value], not a new default. *)
Theorem readonly_value_frozen ops self :
  _ro self = true ->
  _value (perform_all ops self) = _value self
  /\ _ro (perform_all ops self) = true.
Proof.
  revert self. induction ops as [|o rest IH]; intros self Hro; simpl; auto.
  destruct (perform_readonly o self Hro) as (Hro' & Hv & _).
  destruct (IH _ Hro') as [-> ->]. auto.
Qed.

Lemma perform_frame (o : operation) self :
  _constraints (fst (perform o self)) = _constraints self
  /\ _ro (fst (perform o self)) = _ro self.
Proof.
  destruct o as [val| |d]; simpl.
  - pose proof (_set_frame val false self) as F. simpl in F. tauto.
  - unfold reset_value. destruct (_ && _); simpl; auto.
    pose proof (_set_frame (__default (with_isset true self)) false
                  (with_isset true self)) as F. simpl in F. tauto.
  - unfold _set_default, reset_value. destruct (is_default self); simpl; auto.
    destruct (_ && _); simpl; auto.
    match goal with
    | |- context [_set ?x false ?s] =>
        pose proof (_set_frame x false s) as F;
        destruct (_set x false s) as [q [|]]
    end; simpl in *; tauto.
Qed.

Lemma _set_value val (init : bool) self :
  _value (fst (_set val init self)) = _value self
  \/ returned_by self (_value (fst (_set val init self))).
Proof.
  unfold _set. destruct (constrain self val) as [val'|] eqn:Hc; simpl; auto.
  destruct (_ro self && negb init); simpl; auto.
  destruct (differs _); simpl; auto. right. now exists val.
Qed.

Lemma perform_value (o : operation) self :
  _value (fst (perform o self)) = _value self
  \/ returned_by self (_value (fst (perform o self))).
Proof.
  destruct o as [val| |d]; simpl.
  - apply _set_value.
  - unfold reset_value. destruct (_ && _); simpl; auto.
    apply (_set_value _ false (with_isset true self)).
  - unfold _set_default, reset_value. destruct (is_default self); simpl; auto.
    destruct (_ && _); simpl; auto.
    match goal with
    | |- context [_set ?x false ?s] =>
        pose proof (_set_value x false s) as F;
        destruct (_set x false s) as [q [|]]
    end; simpl in *; exact F.
Qed.

Lemma constrain_perform (o : operation) self val :
  constrain (fst (perform o self)) val = constrain self val.
Proof.
  unfold constrain. now destruct (perform_frame o self) as [-> _].
Qed.

Lemma constrain_perform_all ops self val :
  constrain (perform_all ops self) val = constrain self val.
Proof.
  revert self. induction ops as [|o rest IH]; intros self; simpl; trivial.
  now rewrite IH, constrain_perform.
Qed.

(** A property of the current value that every result of the constraint
    has is kept by every sequence of operations. *)
Lemma perform_all_invariant (P : obj -> Prop) ops self :
  (forall val r, constrain self val = Ok r -> P r) ->
  P (_value self) -> P (_value (perform_all ops self)).
Proof.
  revert self. induction ops as [|o rest IH]; intros self HP Hv; simpl;
    trivial.
  apply IH.
  - intros val r. rewrite constrain_perform. apply HP.
  - destruct (perform_value o self) as [-> | [val Hval]]; eauto.
Qed.

(** X10: a value that the constraint of the parameter can return is only
    ever replaced by another such value: whatever sequence of assignments,
    resets and changes of default follows, raising or not, the parameter
    holds something its constraint returned. *)
Theorem value_stays_returned ops self :
  returned_by self (_value self) ->
  returned_by (perform_all ops self) (_value (perform_all ops self)).
Proof.
  intros H.
  assert (Hr : returned_by self (_value (perform_all ops self))).
  { apply perform_all_invariant; trivial. intros val r Hc. now exists val. }
  destruct Hr as [val Hval]. exists val. now rewrite constrain_perform_all.
Qed.

(** X16: a parameter constrained by an [EnsureRange] that holds a value
    the range accepts never comes to hold one it refuses, whatever is
    assigned to it, reset or made its default. *)
Theorem range_is_kept (min max : obj) ops self :
  _constraints self = Some (EnsureRange min max) ->
  call (EnsureRange min max) (_value self) = Ok (_value self) ->
  call (EnsureRange min max) (_value (perform_all ops self))
    = Ok (_value (perform_all ops self)).
Proof.
  intros Hc Hv.
  apply (perform_all_invariant
           (fun r => call (EnsureRange min max) r = Ok r)); trivial.
  unfold constrain. rewrite Hc. intros val r H.
  pose proof H as E. apply checks_return_input_EnsureRange in E. now subst r.
Qed.

(** X11: calling [reset_value] a second time changes nothing more,
    provided the constraint's result for the default does not compare
    different from itself. *)
Theorem reset_value_twice self :
  (forall d', constrain self (default self) = Ok d' ->
              differs (py_ne d' d') = false) ->
  fst (reset_value (fst (reset_value self))) = fst (reset_value self).
Proof.
  intros Hrefl. unfold reset_value at 2 3.
  destruct (negb (is_default self) && negb (_ro self)) eqn:Hg.
  - apply andb_prop in Hg as [Hd Hro]. apply negb_true_iff in Hd, Hro.
    unfold _set.
    change (constrain (with_isset true self) (__default (with_isset true self)))
      with (constrain self (default self)).
    change (_ro (with_isset true self)) with (_ro self).
    change (_value (with_isset true self)) with (_value self).
    rewrite Hro. simpl andb. cbv iota.
    destruct (constrain self (default self)) as [d'|e] eqn:Hc; simpl.
    + destruct (differs (py_ne (_value self) d')) eqn:Hdiff; simpl.
      * unfold reset_value, is_default. simpl. rewrite Hro. simpl.
        destruct (py_is d' (__default self)); simpl; trivial.
        unfold _set, constrain. simpl. unfold constrain, default in Hc.
        rewrite Hc, Hro. simpl. now rewrite (Hrefl _ eq_refl).
      * unfold reset_value, is_default. simpl.
        unfold is_default, default in Hd. rewrite Hd, Hro. simpl.
        unfold _set, constrain. simpl. unfold constrain, default in Hc.
        rewrite Hc, Hro. simpl. now rewrite Hdiff.
    + unfold reset_value, is_default. simpl.
      unfold is_default, default in Hd. rewrite Hd, Hro. simpl.
      unfold _set, constrain. simpl. unfold constrain, default in Hc.
      now rewrite Hc.
  - simpl. unfold reset_value. now rewrite Hg.
Qed.

(** X12: [reset_value] can only raise what the constraint raises on the
    default, never the read-only error, and when it does the value is
    untouched but [_isset] is already true. *)
Theorem reset_value_raises self e :
  snd (reset_value self) = Raise e ->
  fst (reset_value self) = with_isset true self
  /\ constrain self (default self) = Raise e
  /\ _ro self = false /\ is_default self = false.
Proof.
  unfold reset_value.
  destruct (negb (is_default self) && negb (_ro self)) eqn:Hg;
    [|discriminate].
  apply andb_prop in Hg as [Hd Hro]. apply negb_true_iff in Hd, Hro.
  intros H.
  destruct (_set_writable_Raise (__default (with_isset true self))
              (with_isset true self) Hro H) as [-> Hc].
  auto.
Qed.

(** X13: when assigning to [default] raises, the new default is stored all
    the same and [_isset] is true: the value was the old default object,
    the parameter is not read-only, and the exception is the one the
    constraint raised on the new default. *)
Theorem _set_default_raises d self e :
  snd (_set_default d self) = Raise e ->
  fst (_set_default d self) = with_isset true (with_default d self)
  /\ constrain self d = Raise e
  /\ is_default self = true /\ _ro self = false.
Proof.
  unfold _set_default, reset_value.
  change (is_default (with_default d self)) with (py_is (_value self) d).
  change (_ro (with_default d self)) with (_ro self).
  destruct (is_default self); [|discriminate].
  destruct (negb (py_is (_value self) d) && negb (_ro self)) eqn:Hg;
    [|discriminate].
  apply andb_prop in Hg as [_ Hro]. apply negb_true_iff in Hro.
  pose proof (_set_writable_Raise
                (__default (with_isset true (with_default d self)))
                (with_isset true (with_default d self)) (e := e) Hro) as H.
  destruct (_set _ false _) as [q [u|e']]; simpl in *; [discriminate|].
  intros [= ->]. destruct (H eq_refl) as [-> Hc]. auto.
Qed.

Lemma _set_keeps_isset val self :
  _isset self = true -> _isset (fst (_set val false self)) = true.
Proof.
  intros Hs. unfold _set. destruct (constrain self val); trivial.
  destruct (_ro self); simpl; trivial. now destruct (differs _).
Qed.

(** X14: once [_isset] is true, assignments and resets keep it true; only
    an assignment to [default] can clear it. *)
Theorem _isset_stays_true ops self :
  _isset self = true ->
  Forall (fun o => match o with SetDefault _ => False | _ => True end) ops ->
  _isset (perform_all ops self) = true.
Proof.
  intros Hs Hops. revert self Hs.
  induction Hops as [|o rest Ho _ IH]; intros self Hs; simpl; trivial.
  apply IH. destruct o as [val| |d]; simpl; [| |contradiction].
  - now apply _set_keeps_isset.
  - unfold reset_value. destruct (_ && _); trivial.
    now apply _set_keeps_isset.
Qed.

Lemma set_kwargs_Raise kwargs e :
  set_kwargs kwargs = Raise e -> exc_type e = AttributeError.
Proof.
  induction kwargs as [|[k v] rest IH]; simpl; [discriminate|].
  unfold setattr_init.
  destruct (String.eqb k "is_default" || String.eqb k "equal_default"
            || base_readonly k)%bool; simpl; [now intros [= <-]|].
  destruct (String.eqb k "value"); simpl; [now intros [= <-]|].
  destruct (String.eqb k "default"); simpl; [now intros [= <-]|]. exact IH.
Qed.

Lemma set_kwargs_readonly k kwargs :
  has_key k kwargs = true ->
  k = "is_default" \/ k = "equal_default" ->
  exists e, set_kwargs kwargs = Raise e.
Proof.
  intros Hk Hro. induction kwargs as [|[k' v] rest IH]; simpl in *;
    [discriminate|].
  destruct (setattr_init k') as [[]|e] eqn:Hs; simpl; [|eauto].
  apply orb_prop in Hk as [Hk|Hk]; auto.
  apply String.eqb_eq in Hk. subst k'. unfold setattr_init in Hs.
  destruct Hro as [-> | ->]; simpl in Hs; discriminate.
Qed.


End Parameters.

(** * Further properties of the checks and of the documentation *)

Section Checks.

Context {obj : Type} {host : Host obj}.

Lemma py_in_Ok (v : obj) (allowed : list obj) :
  (forall x, In x allowed -> exists b, py_eq v x = Ok b) ->
  py_in v allowed = Ok true
  <-> exists x, In x allowed /\ (py_is v x = true \/ py_eq v x = Ok true).
Proof.
  induction allowed as [|a rest IH]; simpl; intros Heq.
  - split; [discriminate | intros (x & [] & _)].
  - destruct (py_is v a) eqn:His.
    + split; trivial. intros _. exists a. auto.
    + destruct (Heq a (or_introl eq_refl)) as [b Hb]. rewrite Hb. simpl.
      destruct b.
      * split; trivial. intros _. exists a. auto.
      * rewrite IH by auto. split.
        -- intros (x & Hx & H). exists x. auto.
        -- intros (x & [<-|Hx] & H); [|now exists x].
           destruct H; congruence.
Qed.

(** X17: where comparing the value with the allowed objects does not
    raise, [EnsureChoice] returns the value exactly when it is one of the
    allowed objects or compares equal to one; the value is then returned as
    it is, not the listed object. *)
Theorem EnsureChoice_by_equality (allowed : list obj) (v : obj) :
  (forall x, In x allowed -> exists b, py_eq v x = Ok b) ->
  (call (EnsureChoice allowed) v = Ok v
   <-> exists x, In x allowed /\ (py_is v x = true \/ py_eq v x = Ok true))
  /\ forall r, call (EnsureChoice allowed) v = Ok r -> r = v.
Proof.
  intros Heq. rewrite <- (py_in_Ok _ _ Heq). simpl. unfold EnsureChoice_call.
  destruct (py_in v allowed) as [[|]|e]; simpl.
  - split; [tauto | now intros r [= <-]].
  - destruct (tuple_str allowed); simpl; split;
      (split || intros r); discriminate.
  - split; [split|intros r]; discriminate.
Qed.

Lemma child_docs_None (constraints : list (option (constraint obj)))
    (docs : list (option string)) :
  In (Some EnsureValue) constraints ->
  child_docs get_doc constraints = Ok docs -> In None docs.
Proof.
  revert docs. induction constraints as [|x rest IH]; simpl; intros docs;
    [contradiction|].
  intros [->|Hin].
  - simpl. destruct (child_docs get_doc rest); simpl; [|discriminate].
    intros [= <-]. now left.
  - destruct (hasattr_get_doc x); [|now apply IH].
    destruct x as [c|]; [|now apply IH].
    destruct (get_doc c) as [d|]; simpl; [|discriminate].
    destruct (child_docs get_doc rest) as [r|]; simpl; [|discriminate].
    intros [= <-]. right. now apply IH.
Qed.

Lemma str_join_from_None (docs : list (option string)) (i : nat) :
  In None docs -> exists e, str_join_from i docs = Raise e.
Proof.
  revert i. induction docs as [|[s|] rest IH]; simpl; intros i Hin.
  - contradiction.
  - destruct Hin as [|Hin]; [discriminate|].
    destruct (IH (S i) Hin) as [e ->]. simpl. eauto.
  - eauto.
Qed.

Lemma str_join_None (sep : string) (docs : list (option string)) :
  In None docs -> exists e, str_join sep docs = Raise e.
Proof.
  intros Hin. unfold str_join.
  destruct (str_join_from_None docs 0 Hin) as [e ->]. simpl. eauto.
Qed.

(** X18: a combinator with an [EnsureValue()] among its children has no
    documentation: [get_doc] raises, for [EnsureValue.get_doc] returns None
    and the join accepts strings only. *)
Theorem combinator_doc_with_EnsureValue
    (constraints : list (option (constraint obj))) :
  In (Some EnsureValue) constraints ->
  (exists e, get_doc (AndConstrainer constraints) = Raise e)
  /\ (exists e, get_doc (OrConstrainer constraints) = Raise e).
Proof.
  intros Hin. split; cbn [get_doc];
    (destruct (child_docs get_doc constraints) as [docs|e] eqn:Hd;
     [|now exists e]);
    apply child_docs_None in Hd; trivial;
    [destruct (str_join_None ", " docs Hd) as [e He]
    |destruct (str_join_None " or " docs Hd) as [e He]];
    exists e; simpl; now rewrite He.
Qed.

(** X19: [_paramdoc] gives the name and nothing else when the parameter
    has no doc string, when its constraint has no documentation to give
    ([get_doc] is missing, raises or returns None), or when [textwrap.wrap]
    refuses the width left beside the indent: whatever goes wrong in the
    paragraph is swallowed and takes the whole paragraph with it. *)
Theorem _paramdoc_name_only (indent : string) (width : Z)
    (self : parameter obj) :
  py_text (__doc__ self) = None
  \/ (exists c, _constraints self = Some c
                /\ forall s, get_doc c <> Ok (Some s))
  \/ (exists e, forall text,
         textwrap_wrap text (width - Z.of_nat (String.length indent))
           = Raise e) ->
  _paramdoc indent width self = Ok (py_str (name self)).
Proof.
  intros H. unfold _paramdoc.
  replace (str_hasattr (py_str (name self)) "allowedtype") with false
    by (unfold str_hasattr; vm_compute; reflexivity).
  simpl bind.
  assert (Hb : exists e, paramdoc_body indent width self = Raise e).
  { unfold paramdoc_body. destruct H as [-> | [(c & -> & Hc) | (e & He)]].
    - simpl. eauto.
    - destruct (py_text (__doc__ self)) as [t|]; simpl; eauto.
      destruct (get_doc c) as [[s'|]|e]; simpl; eauto.
      now destruct (Hc s').
    - destruct (py_text (__doc__ self)) as [t|]; simpl; eauto.
      destruct (_constraints self) as [c|]; simpl.
      + destruct (get_doc c) as [[s'|]|e']; simpl; eauto.
        rewrite He. simpl. eauto.
      + rewrite He. simpl. eauto. }
  destruct Hb as [e ->]. reflexivity.
Qed.

End Checks.

(** X20: between ints, [EnsureRange] is inclusive at both ends and open
    where a bound is None: the value is returned exactly when it is not
    below the lower and not above the upper bound; a value below the lower
    bound is reported as such, even if it is above the upper one as
    well. *)
Theorem EnsureRange_on_ints (i j k : positive) (lo hi : option Z) (z : Z) :
  (call (EnsureRange (bound i lo) (bound j hi)) (CPython.int k z)
     = Ok (CPython.int k z)
   <-> (forall l, lo = Some l -> l <= z) /\ (forall h, hi = Some h -> z <= h))
  /\ (forall l, lo = Some l -> z < l ->
      call (EnsureRange (bound i lo) (bound j hi)) (CPython.int k z)
        = Raise (Exc ValueError
                   ("Value must be at least " ++ CPython.decimal l)))
  /\ (forall h, hi = Some h -> h < z ->
      (forall l, lo = Some l -> l <= z) ->
      call (EnsureRange (bound i lo) (bound j hi)) (CPython.int k z)
        = Raise (Exc ValueError
                   ("Value must be at most " ++ CPython.decimal h))).
Proof.
  cbn [call]. unfold EnsureRange_call.
  destruct lo as [l|], hi as [h|]; cbn -[Z.compare CPython.decimal append];
    repeat match goal with
           | |- context [Z.compare ?a ?b] => destruct (Z.compare_spec a b)
           end;
    cbn -[CPython.decimal append];
    (split; [split; [intros E; try discriminate E; split; intros ? [= <-]; lia
                    |intros [H1 H2]; try reflexivity;
                     try (specialize (H1 _ eq_refl)); 
                     try (specialize (H2 _ eq_refl)); lia]
            |split; intros ? E; inversion E; subst;
             intros; try reflexivity; try lia;
             match goal with
             | H : forall l, Some _ = Some l -> _ |- _ =>
                 specialize (H _ eq_refl); lia
             | _ => idtac
             end]).
Qed.

(** * The regular expression *)

Lemma whitespace_scan_start (s : string) :
  starts_with_space s = false ->
  starts_with_space (whitespace_scan false s) = false.
Proof.
  destruct s as [|c s']; simpl; trivial. intros Hc.
  destruct (Ascii.eqb_spec c (ascii_of_nat 10)) as [->|_]; [discriminate|].
  simpl. exact Hc.
Qed.

Lemma whitespace_scan_skipping_start (s : string) :
  starts_with_space (whitespace_scan true s) = false.
Proof.
  induction s as [|c s' IH]; simpl; trivial.
  destruct (isspace c) eqn:Hc; trivial.
  destruct (Ascii.eqb_spec c (ascii_of_nat 10)) as [->|_]; [discriminate|].
  simpl. exact Hc.
Qed.

Lemma whitespace_scan_clean (skipping : bool) (s : string) :
  newline_then_space (whitespace_scan skipping s) = false.
Proof.
  revert skipping. induction s as [|c s' IH]; intros skipping; simpl; trivial.
  destruct (skipping && isspace c); [apply IH|].
  destruct (Ascii.eqb c (ascii_of_nat 10)) eqn:Hnl; simpl.
  - destruct (starts_with_space s') eqn:Hs; simpl; [apply IH|].
    rewrite Hnl, IH, whitespace_scan_start by trivial. reflexivity.
  - now rewrite Hnl, IH.
Qed.

Lemma whitespace_scan_id (s : string) :
  newline_then_space s = false -> whitespace_scan false s = s.
Proof.
  induction s as [|c s' IH]; simpl; trivial. intros H.
  apply orb_false_elim in H as [-> H]. now rewrite IH.
Qed.

Lemma whitespace_scan_skipping (s : string) :
  starts_with_space s = false ->
  whitespace_scan true s = whitespace_scan false s.
Proof. destruct s as [|c s']; simpl; trivial. now intros ->. Qed.

(** X21: [_whitespace_re.sub(' ', s)] leaves no newline followed by
    whitespace; it changes nothing in a string that has none and does not
    start with whitespace; and applying it again changes nothing more. *)
Theorem _whitespace_re_sub_normal (s : string) :
  newline_then_space (_whitespace_re_sub s) = false
  /\ (starts_with_space s = false -> newline_then_space s = false ->
      _whitespace_re_sub s = s)
  /\ _whitespace_re_sub (_whitespace_re_sub s) = _whitespace_re_sub s.
Proof.
  unfold _whitespace_re_sub at 1 2 4 5.
  destruct (starts_with_space s) eqn:Hs.
  - repeat split; [apply whitespace_scan_clean | discriminate |].
    unfold _whitespace_re_sub. simpl.
    rewrite whitespace_scan_skipping, whitespace_scan_id;
      auto using whitespace_scan_clean, whitespace_scan_skipping_start.
  - repeat split; [apply whitespace_scan_clean
                  | intros _; apply whitespace_scan_id |].
    unfold _whitespace_re_sub.
    rewrite whitespace_scan_start by trivial.
    apply whitespace_scan_id, whitespace_scan_clean.
Qed.

(** * The further properties at work on CPython objects *)

Lemma OrConstrainer_first_success_witness :
  call (OrConstrainer [Some range_7_44; None; Some choice_a_b])
       (CPython.int 4 50)
  = Raise (Exc ValidationError "All given constraints are violated").
Proof.
  assert (Hn : py_eq (CPython.int 4 50) py_None = Ok false) by reflexivity.
  apply (proj2 (OrConstrainer_first_success
                  [Some range_7_44; None; Some choice_a_b] _ Hn)).
  repeat constructor; eexists; reflexivity.
Defined.

Lemma checks_return_input_witness :
  CPython.int 4 10 = CPython.int 4 10 \/ CPython.int 4 10 = py_None.
Proof.
  apply (@checks_return_input _ _
           (OrConstrainer
              [Some (AndConstrainer
                       [Some range_7_44;
                        Some (EnsureChoice [CPython.int 8 10])]);
               None]));
    reflexivity.
Defined.


Lemma _set_raises_unchanged_witness :
  fst (_set (CPython.int 20 50) false p_10_range) = p_10_range
  /\ (constrain p_10_range (CPython.int 20 50)
        = Raise (Exc ValueError "Value must be at most 44")
      \/ (_ro p_10_range = true /\ false = false
          /\ exc_type (Exc ValueError "Value must be at most 44")
             = RuntimeError)).
Proof.
  apply (@_set_raises_unchanged _ _ (CPython.int 20 50) false p_10_range).
  reflexivity.
Defined.

Lemma _set_twice_witness :
  _set (CPython.int 20 7) false (fst (_set (CPython.int 20 7) false p_1))
  = (fst (_set (CPython.int 20 7) false p_1), Ok tt).
Proof.
  apply (@_set_twice _ _ (CPython.int 20 7) (CPython.int 20 7) p_1);
    reflexivity.
Defined.

Lemma readonly_value_frozen_witness :
  _value (perform_all session p_readonly) = CPython.int 11 2
  /\ _ro (perform_all session p_readonly) = true.
Proof.
  apply (@readonly_value_frozen _ _ session p_readonly). reflexivity.
Defined.

Lemma value_stays_returned_witness :
  returned_by (perform_all session p_10_range)
    (_value (perform_all session p_10_range)).
Proof.
  apply (@value_stays_returned _ _ session p_10_range).
  exists (CPython.int 10 10). reflexivity.
Defined.

Lemma range_is_kept_witness :
  call range_7_44 (_value (perform_all session p_10_range))
  = Ok (_value (perform_all session p_10_range)).
Proof.
  apply (@range_is_kept _ _ (CPython.int 2 7) (CPython.int 3 44) session
           p_10_range); reflexivity.
Defined.

Lemma reset_value_twice_witness :
  fst (reset_value (fst (reset_value p_5_7))) = fst (reset_value p_5_7).
Proof.
  apply (@reset_value_twice _ _ p_5_7). intros d' [= <-]. reflexivity.
Defined.

Lemma reset_value_raises_witness :
  fst (reset_value p_50_10) = with_isset true p_50_10
  /\ constrain p_50_10 (default p_50_10)
     = Raise (Exc ValueError "Value must be at most 44")
  /\ _ro p_50_10 = false /\ is_default p_50_10 = false.
Proof.
  apply (@reset_value_raises _ _ p_50_10). reflexivity.
Defined.

Lemma _set_default_raises_witness :
  fst (_set_default (CPython.int 22 99) p_10_range)
  = with_isset true (with_default (CPython.int 22 99) p_10_range)
  /\ constrain p_10_range (CPython.int 22 99)
     = Raise (Exc ValueError "Value must be at most 44")
  /\ is_default p_10_range = true /\ _ro p_10_range = false.
Proof.
  apply (@_set_default_raises _ _ (CPython.int 22 99) p_10_range).
  reflexivity.
Defined.

Lemma _isset_stays_true_witness :
  _isset (perform_all [SetValue (CPython.int 20 5); ResetValue;
                       SetValue (CPython.int 21 8)] p_5_7) = true.
Proof.
  apply (@_isset_stays_true _ _
           [SetValue (CPython.int 20 5); ResetValue;
            SetValue (CPython.int 21 8)] p_5_7);
    [reflexivity | repeat constructor].
Defined.


Lemma EnsureChoice_by_equality_witness :
  call choice_a_b (CPython.str 9 "b") = Ok (CPython.str 9 "b").
Proof.
  assert (Heq : forall x,
             In x [CPython.str 5 "a"; CPython.str 6 "b"] ->
             exists b, py_eq (CPython.str 9 "b") x = Ok b).
  { intros x _. eexists. reflexivity. }
  apply (proj1 (EnsureChoice_by_equality _ _ Heq)).
  exists (CPython.str 6 "b"). split; [right; now left | right; reflexivity].
Defined.

Lemma combinator_doc_with_EnsureValue_witness :
  (exists e,
     get_doc (AndConstrainer [Some range_7_44; Some EnsureValue]) = Raise e)
  /\ (exists e,
        get_doc (OrConstrainer [Some range_7_44; Some EnsureValue])
        = Raise e).
Proof.
  apply (@combinator_doc_with_EnsureValue _ _
           [Some range_7_44; Some EnsureValue]).
  right. now left.
Defined.

Lemma _paramdoc_name_only_witness :
  _paramdoc "  " 2 p_doc = Ok "p"
  /\ _paramdoc "  " 70 p_doc = Ok ("p" ++ newline ++ "  d. (Default: 1)").
Proof.
  split; [|reflexivity].
  change (_paramdoc "  " 2 p_doc = Ok (py_str (name p_doc))).
  apply _paramdoc_name_only. right. right.
  eexists. intros text. reflexivity.
Defined.
